(** * phonespy: a verification development for [phonespy.py]

    The program is a thin command-line wrapper around the [phonenumbers]
    package: [basic_lookup] turns one raw string into a flat record (a
    Python [dict]), [cli] collects the records of all arguments, prints
    them and optionally exports them with [write_json] or [write_csv].

    The embedding follows the source function by function.  Python values
    are an inductive type, a [dict] is an association list in insertion
    order, exceptions are an error monad, standard output and the files
    are an explicit world that is threaded through [cli].  The
    [phonenumbers] package is an interface ([PhoneLib]); what depends on
    the interpreter or on the machine is an interface as well ([PyEnv]):
    a few built-ins, and the failures of the streams and of the file
    system. *)

From Stdlib Require Import String Ascii List ZArith Bool Lia.
From Stdlib Require Import DecimalString DecimalZ DecimalFacts.
Import ListNotations.
Local Open Scope list_scope.
Local Open Scope string_scope.

(** ** Python values *)

(** The values the program handles: [None], [bool], [int], [str], [list]
    and [dict] with [str] keys.

    A [str] is kept as a sequence of bytes, code point by code point:
    the UTF-8 bytes of the code point, three bytes ED A0..BF xx for a
    surrogate, but for an escape surrogate U+DC80..U+DCFF the one byte
    it escapes.  For a string of the command line these are the bytes
    [os.fsencode] gives back, the bytes that were typed: a byte of an
    argument that is not UTF-8 reaches the program as an escape
    surrogate.  Concatenation of strings is concatenation of their
    bytes.  A string has a strict UTF-8 encoding exactly when it holds
    no surrogate, and that is when its bytes are valid UTF-8
    ([utf8_valid] below); the one exception, a string in which escape
    surrogates in a row spell a valid sequence, is not told apart from
    the text they spell, and [os.fsdecode] never makes one. *)
Unset Elimination Schemes.
Inductive pyobj : Type :=
| PNone
| PBool (b : bool)
| PInt (z : Z)
| PStr (s : string)
| PList (items : list pyobj)
| PDict (entries : list (string * pyobj)).
Set Elimination Schemes.

(** A [dict] keeps its keys in insertion order. *)
Definition dict : Type := list (string * pyobj).

Definition keys (d : dict) : list string := map fst d.

(** [d.get(k)]: [None] stands for a missing key. *)
Fixpoint dict_get (d : dict) (k : string) : option pyobj :=
  match d with
  | [] => None
  | (k', v) :: rest => if String.eqb k k' then Some v else dict_get rest k
  end.

(** [d.get(k, default)] *)
Definition dict_get_default (d : dict) (k : string) (default : pyobj) : pyobj :=
  match dict_get d k with
  | Some v => v
  | None => default
  end.

(** [d[k] = v]: an existing key keeps its position, a new key goes last. *)
Fixpoint dict_set (d : dict) (k : string) (v : pyobj) : dict :=
  match d with
  | [] => [(k, v)]
  | (k', v') :: rest =>
      if String.eqb k k' then (k', v) :: rest else (k', v') :: dict_set rest k v
  end.

(** A dict display [{k1: v1, ..., kn: vn}] stores its items from left to
    right. *)
Definition dict_display (items : list (string * pyobj)) : dict :=
  fold_left (fun d kv => dict_set d (fst kv) (snd kv)) items [].

(** Truth value testing of Python. *)
Definition truthy (v : pyobj) : bool :=
  match v with
  | PNone => false
  | PBool b => b
  | PInt z => negb (Z.eqb z 0)
  | PStr s => negb (String.eqb s EmptyString)
  | PList items => match items with [] => false | _ => true end
  | PDict entries => match entries with [] => false | _ => true end
  end.

(** [str(n)] for an [int]: the decimal numeral, [-] in front of a negative
    one. *)
Definition str_of_int (z : Z) : string := NilZero.string_of_int (Z.to_int z).

(** The line feed character and the double quote. *)
Definition LF : ascii := "010"%char.
Definition DQUOTE : ascii := "034"%char.
Definition nl : string := String LF EmptyString.

(** [sep.join(parts)] on strings. *)
Fixpoint join (sep : string) (parts : list string) : string :=
  match parts with
  | [] => EmptyString
  | [p] => p
  | p :: rest => p ++ sep ++ join sep rest
  end.

(** ** Strict UTF-8

    The byte sequences that the codec [utf-8] accepts: no stray
    continuation byte, no truncated or overlong sequence, no surrogate
    (ED A0..BF), nothing above U+10FFFF.  A [str] whose bytes fail this
    test holds a surrogate, and encoding it with [utf-8] raises
    [UnicodeEncodeError]. *)

Definition in_range (lo hi : N) (c : ascii) : bool :=
  (N.leb lo (N_of_ascii c) && N.leb (N_of_ascii c) hi)%bool.

Definition continuation (c : ascii) : bool := in_range 128 191 c.

Fixpoint utf8_valid (s : string) : bool :=
  match s with
  | EmptyString => true
  | String a r =>
      let n := N_of_ascii a in
      if N.ltb n 128 then utf8_valid r
      else if N.ltb n 194 then false
      else if N.ltb n 224 then
        match r with
        | String b r' => (continuation b && utf8_valid r')%bool
        | _ => false
        end
      else if N.ltb n 240 then
        match r with
        | String b (String c r') =>
            ((if N.eqb n 224 then in_range 160 191 b
              else if N.eqb n 237 then in_range 128 159 b
              else continuation b)
             && continuation c && utf8_valid r')%bool
        | _ => false
        end
      else if N.ltb n 245 then
        match r with
        | String b (String c (String d r')) =>
            ((if N.eqb n 240 then in_range 144 191 b
              else if N.eqb n 244 then in_range 128 143 b
              else continuation b)
             && continuation c && continuation d && utf8_valid r')%bool
        | _ => false
        end
      else false
  end.

(** ** Exceptions *)

Inductive exn : Type :=
| NumberParseException (msg : string)
| KeyError (key : string)
| TypeError
| ValueError
| UnicodeEncodeError
| OSError
| RuntimeError
| OtherException.

Inductive result (A : Type) : Type :=
| Ok (a : A)
| Raise (e : exn).
Arguments Ok {A} a.
Arguments Raise {A} e.

Definition rbind {A B} (r : result A) (k : A -> result B) : result B :=
  match r with
  | Ok a => k a
  | Raise e => Raise e
  end.

(** [d[k]]: a missing key raises [KeyError]. *)
Definition subscript (d : dict) (k : string) : result pyobj :=
  match dict_get d k with
  | Some v => Ok v
  | None => Raise (KeyError k)
  end.

(** ** The [phonenumbers] package

    The operations the program calls, and the two ways in which
    [_phone_type_name] tries to turn a type code into a name.  What the
    package computes is its own business; the program only passes the
    results on.  The operations read the numbering-plan data of the
    package and change nothing, so they are functions. *)

Inductive PhoneNumberFormat : Type := E164 | INTERNATIONAL.

Class PhoneLib : Type := {
  (** the parsed number object *)
  PhoneNumber : Type;
  (** what [phonenumbers.parse(s, None)] does with a string: it returns
      the parsed number, or it raises [NumberParseException]; the right
      summand is the text [str(exc)] of that exception *)
  parse_number : string -> PhoneNumber + string;
  is_valid_number : PhoneNumber -> bool;
  is_possible_number : PhoneNumber -> bool;
  format_number : PhoneNumber -> PhoneNumberFormat -> string;
  (** the attribute [parsed.country_code] *)
  country_code : PhoneNumber -> Z;
  (** [geocoder.description_for_number(parsed, lang)] *)
  description_for_number : PhoneNumber -> string -> string;
  (** [carrier.name_for_number(parsed, lang)] *)
  name_for_number : PhoneNumber -> string -> string;
  (** [timezone.time_zones_for_number(parsed)] *)
  time_zones_for_number : PhoneNumber -> list string;
  (** [phonenumbers.number_type(parsed)]: the type code *)
  number_type : PhoneNumber -> Z;
  (** [PhoneNumberType(code).name]; it raises where [PhoneNumberType] is
      not an enumeration that can be called *)
  PhoneNumberType_name : Z -> result string;
  (** the attribute [PhoneNumberType._VALUES_TO_NAMES], a table from codes
      to names; reading it raises where the attribute does not exist *)
  VALUES_TO_NAMES : result (list (Z * string))
}.

(** [table.get(code, default)] on a table from codes to names. *)
Fixpoint table_get (table : list (Z * string)) (code : Z) (default : string)
  : string :=
  match table with
  | [] => default
  | (c, name) :: rest => if Z.eqb code c then name else table_get rest code default
  end.

(** [try: body / except Exception: handler] *)
Definition try_except {A} (body : result A) (handler : result A) : result A :=
  match body with
  | Ok a => Ok a
  | Raise _ => handler
  end.

Section Lookup.

Context {L : PhoneLib}.

(** [phonenumbers.parse(raw_number, None)] *)
Definition parse (raw_number : string) : result PhoneNumber :=
  match parse_number raw_number with
  | inl parsed => Ok parsed
  | inr msg => Raise (NumberParseException msg)
  end.

(** *** [_phone_type_name] *)

Definition _phone_type_name (parsed : PhoneNumber) : result string :=
  let num_type := number_type parsed in
  try_except
    (PhoneNumberType_name num_type)
    (try_except
       (rbind VALUES_TO_NAMES (fun table =>
          Ok (table_get table num_type "UNKNOWN")))
       (Ok (str_of_int num_type))).

(** *** [basic_lookup] *)

(** The record of a string that does not parse. *)
Definition error_record (raw_number msg : string) : dict :=
  dict_display
    [ ("input", PStr raw_number);
      ("valid", PBool false);
      ("error", PStr msg) ].

Definition basic_lookup (raw_number : string) : result dict :=
  match parse raw_number with
  | Raise (NumberParseException msg) => Ok (error_record raw_number msg)
  | Raise e => Raise e
  | Ok parsed =>
      let valid := is_valid_number parsed in
      let possible := is_possible_number parsed in
      rbind (_phone_type_name parsed) (fun type_name =>
      Ok (dict_display
        [ ("input", PStr raw_number);
          ("valid", PBool (valid && possible));
          ("possible", PBool possible);
          ("international_format", PStr (format_number parsed INTERNATIONAL));
          ("e164_format", PStr (format_number parsed E164));
          ("country_code", PInt (country_code parsed));
          ("region", PStr (description_for_number parsed "en"));
          ("carrier", PStr (name_for_number parsed "en"));
          ("timezones", PList (map PStr (time_zones_for_number parsed)));
          ("type", PStr type_name) ]))
  end.

End Lookup.

(** ** What is left to the interpreter and the machine

    Two built-ins that the program reaches only on values it never
    builds, two operations of [pathlib] that read the machine, and the
    failures of the devices.  A failure is the exception the call
    raises: [UnicodeEncodeError] from a stream whose encoding has no
    bytes for a character, [OSError] from a stream or a path that the
    system refuses, [RuntimeError] from [expanduser] when the home
    directory cannot be determined. *)

Class PyEnv : Type := {
  (** [repr(v)] of a container; [str] of a list or a dict is its [repr] *)
  repr : pyobj -> string;
  (** iterating a [str] yields its characters, each a [str] *)
  str_chars : string -> list string;
  (** [Path(s).expanduser()], as a path *)
  expanduser : string -> result string;
  (** [str(path.resolve())] *)
  resolve : string -> result string;
  (** [sys.stdout.write(text)]: the exception it raises, if any *)
  stdout_fault : string -> option exn;
  (** [path.open("w", ...)]: the exception it raises, if any *)
  open_fault : string -> option exn;
  (** the exception, if any, with which the device refuses what is
      written to the file open at the path *)
  write_fault : string -> option exn
}.

(** ** [json.dumps(rows, indent=2, ensure_ascii=False)]

    The encoder of the [json] module as [write_json] configures it: items
    are separated by a comma and a line break, nested containers are
    indented by two more spaces, a key is followed by a colon and a
    space, and a string is copied but for the quote, the backslash and
    the control characters below U+0020.  Values are the ones of [pyobj];
    a [float] never occurs in a record. *)

Definition BACKSLASH : ascii := "092"%char.
Definition BS : ascii := "008"%char.
Definition TAB : ascii := "009"%char.
Definition FF : ascii := "012"%char.
Definition CR : ascii := "013"%char.

Definition hex_digit (n : nat) : ascii :=
  if Nat.ltb n 10 then ascii_of_nat (48 + n) else ascii_of_nat (87 + n).

(** One character of a string, as [ESCAPE_DCT] rewrites it. *)
Definition escape_char (c : ascii) : string :=
  if Ascii.eqb c DQUOTE then String BACKSLASH (String DQUOTE EmptyString)
  else if Ascii.eqb c BACKSLASH then String BACKSLASH (String BACKSLASH EmptyString)
  else if Ascii.eqb c LF then String BACKSLASH "n"
  else if Ascii.eqb c CR then String BACKSLASH "r"
  else if Ascii.eqb c TAB then String BACKSLASH "t"
  else if Ascii.eqb c BS then String BACKSLASH "b"
  else if Ascii.eqb c FF then String BACKSLASH "f"
  else if Nat.ltb (nat_of_ascii c) 32 then
    String BACKSLASH
      (String "u" (String "0" (String "0"
        (String (hex_digit (nat_of_ascii c / 16))
          (String (hex_digit (nat_of_ascii c mod 16)) EmptyString)))))
  else String c EmptyString.

Fixpoint escape (s : string) : string :=
  match s with
  | EmptyString => EmptyString
  | String c rest => escape_char c ++ escape rest
  end.

Definition encode_basestring (s : string) : string :=
  String DQUOTE (escape s ++ String DQUOTE EmptyString).

Fixpoint spaces (n : nat) : string :=
  match n with
  | O => EmptyString
  | S n' => String " " (spaces n')
  end.

(** ['\n' + indent * level] with an indent of two spaces *)
Definition newline_indent (level : nat) : string :=
  String LF (spaces (2 * level)).

Fixpoint iterencode (level : nat) (v : pyobj) {struct v} : string :=
  match v with
  | PNone => "null"
  | PBool true => "true"
  | PBool false => "false"
  | PInt z => str_of_int z
  | PStr s => encode_basestring s
  | PList [] => "[]"
  | PList items =>
      "[" ++ newline_indent (S level)
          ++ join ("," ++ newline_indent (S level))
                  (map (iterencode (S level)) items)
          ++ newline_indent level ++ "]"
  | PDict [] => "{}"
  | PDict entries =>
      "{" ++ newline_indent (S level)
          ++ join ("," ++ newline_indent (S level))
                  (map (fun kv => encode_basestring (fst kv) ++ ": "
                                  ++ iterencode (S level) (snd kv)) entries)
          ++ newline_indent level ++ "}"
  end.

Definition json_dumps (v : pyobj) : string := iterencode 0 v.

(** ** The world of the process: standard output and the files *)

(** What a file holds.  A file written through [csv.DictWriter] is kept as
    the sequence of rows handed to the underlying [csv.writer], each row
    the sequence of its cell values; how the [csv] module quotes a cell
    is not the program's concern. *)
Inductive file_content : Type :=
| TextFile (text : string)
| CsvFile (rows : list (list pyobj)).

Record World : Type := {
  stdout : string;
  files : string -> option file_content
}.

(** A computation may change the world and may raise; what it wrote
    before raising stays written. *)
Definition M (A : Type) : Type := World -> result A * World.

Definition ret {A} (a : A) : M A := fun w => (Ok a, w).

Definition bind {A B} (m : M A) (k : A -> M B) : M B :=
  fun w => match m w with
           | (Ok a, w') => k a w'
           | (Raise e, w') => (Raise e, w')
           end.

Definition lift {A} (r : result A) : M A := fun w => (r, w).

Notation "x <- m ;; k" := (bind m (fun x => k))
  (at level 61, m at next level, right associativity).
Notation "m ;;; k" := (bind m (fun _ => k))
  (at level 61, right associativity).

(** [for x in xs: body(x)] *)
Fixpoint for_each {A} (body : A -> M unit) (xs : list A) : M unit :=
  match xs with
  | [] => ret tt
  | x :: rest => body x ;;; for_each body rest
  end.

(** [print(s)]: the text goes to the stream in one write, which encodes
    it first; when that raises, nothing of the text is written, nor the
    line break after it. *)
Definition print {E : PyEnv} (s : string) : M unit :=
  fun w => match stdout_fault s with
           | Some e => (Raise e, w)
           | None =>
               (Ok tt, {| stdout := stdout w ++ s ++ nl; files := files w |})
           end.

Definition set_file (path : string) (c : file_content) : M unit :=
  fun w => (Ok tt,
            {| stdout := stdout w;
               files := fun p => if String.eqb p path then Some c else files w p |}).

(** [path.open("w", ...)]: where the path cannot be opened the call
    raises and nothing changes; otherwise the file is created, or
    emptied when it exists.  [empty] is the empty content in the form
    the file is going to have. *)
Definition open_w {E : PyEnv} (path : string) (empty : file_content) : M unit :=
  fun w => match open_fault path with
           | Some e => (Raise e, w)
           | None => set_file path empty w
           end.

(** The text of a cell as [csv.writer] writes it is the [str] itself,
    the empty text for [None], and [str(cell)] otherwise; the [repr] of
    a list or a dict escapes what UTF-8 cannot encode, so only a [str]
    cell can hold such a character. *)
Definition cell_encodable (cell : pyobj) : bool :=
  match cell with
  | PStr s => utf8_valid s
  | _ => true
  end.

Definition row_encodable (cells : list pyobj) : bool :=
  forallb cell_encodable cells.

(** [csv.writer.writerow(cells)] on the file opened at [path] with the
    encoding UTF-8: the line of the row is encoded as a whole, so a row
    that cannot be encoded leaves the file as it was. *)
Definition writer_writerow {E : PyEnv} (path : string) (cells : list pyobj)
  : M unit :=
  fun w => match files w path with
           | Some (CsvFile rows) =>
               if row_encodable cells then
                 match write_fault path with
                 | Some e => (Raise e, w)
                 | None => set_file path (CsvFile (rows ++ [cells])%list) w
                 end
               else (Raise UnicodeEncodeError, w)
           | _ => (Raise OtherException, w)
           end.

(** [f.write(text)] on the text file opened at [path] with the encoding
    UTF-8 *)
Definition file_write {E : PyEnv} (path : string) (text : string) : M unit :=
  fun w => if utf8_valid text then
             match write_fault path with
             | Some e => (Raise e, w)
             | None => set_file path (TextFile text) w
             end
           else (Raise UnicodeEncodeError, w).

(** [path.write_text(text, encoding="utf-8")]: the file is opened for
    writing, which empties it, and then written. *)
Definition write_text {E : PyEnv} (path : string) (text : string) : M unit :=
  open_w path (TextFile EmptyString) ;;;
  file_write path text.

(** ** [csv.DictWriter]

    The writer class of the [csv] module with the defaults [write_csv]
    leaves in place: a key that a row lacks is written as the empty
    string ([restval]), a key that is not a field name raises
    [ValueError] ([extrasaction="raise"]). *)

Definition mem (k : string) (ks : list string) : bool :=
  existsb (String.eqb k) ks.

Module DictWriter.

(** [dict(zip(fieldnames, fieldnames))] *)
Definition header (fieldnames : list string) : dict :=
  fold_left (fun d k => dict_set d k (PStr k)) fieldnames [].

Definition _dict_to_list (fieldnames : list string) (rowdict : dict)
  : result (list pyobj) :=
  let wrong_fields :=
    filter (fun k => negb (mem k fieldnames)) (keys rowdict) in
  match wrong_fields with
  | [] => Ok (map (fun key => dict_get_default rowdict key (PStr EmptyString))
                  fieldnames)
  | _ :: _ => Raise ValueError
  end.

Definition writerow {E : PyEnv} (path : string) (fieldnames : list string)
  (rowdict : dict) : M unit :=
  cells <- lift (_dict_to_list fieldnames rowdict) ;;
  writer_writerow path cells.

Definition writeheader {E : PyEnv} (path : string) (fieldnames : list string)
  : M unit :=
  writerow path fieldnames (header fieldnames).

(** The rows are converted and written one after the other; a row that
    raises leaves the rows before it in the file. *)
Definition writerows {E : PyEnv} (path : string) (fieldnames : list string)
  (rowdicts : list dict) : M unit :=
  for_each (writerow path fieldnames) rowdicts.

End DictWriter.

(** ** The serializers *)

Definition write_csv {E : PyEnv} (path : string) (rows : list dict) : M unit :=
  match rows with
  | [] => ret tt
  | row0 :: _ =>
      let fieldnames := keys row0 in
      open_w path (CsvFile []) ;;;
      DictWriter.writeheader path fieldnames ;;;
      DictWriter.writerows path fieldnames rows
  end.

Definition write_json {E : PyEnv} (path : string) (rows : list dict) : M unit :=
  write_text path (json_dumps (PList (map PDict rows))).

(** ** [cli] *)

Inductive Format : Type := json | csv.

(** The namespace [parse_args] returns. *)
Record Namespace : Type := {
  numbers : list string;
  output : option string;
  format : Format
}.

(** [[f(x) for x in xs]]: the list is built from left to right. *)
Fixpoint list_comp_from {A B} (acc : list B) (f : A -> result B) (xs : list A)
  : result (list B) :=
  match xs with
  | [] => Ok acc
  | x :: rest => rbind (f x) (fun y => list_comp_from (acc ++ [y])%list f rest)
  end.

Definition list_comp {A B} (f : A -> result B) (xs : list A) : result (list B) :=
  list_comp_from [] f xs.

Section Cli.

Context {L : PhoneLib} {E : PyEnv}.

(** [str(v)], which is also what a replacement field of an f-string
    inserts. *)
Definition py_str (v : pyobj) : string :=
  match v with
  | PNone => "None"
  | PBool true => "True"
  | PBool false => "False"
  | PInt z => str_of_int z
  | PStr s => s
  | PList _ | PDict _ => repr v
  end.

(** [a + v] for a [str] [a] *)
Definition str_concat (a : string) (v : pyobj) : result string :=
  match v with
  | PStr s => Ok (a ++ s)
  | _ => Raise TypeError
  end.

Fixpoint all_str (items : list pyobj) : result (list string) :=
  match items with
  | [] => Ok []
  | PStr s :: rest => rbind (all_str rest) (fun parts => Ok (s :: parts))
  | _ :: _ => Raise TypeError
  end.

(** [sep.join(v)] *)
Definition str_join (sep : string) (v : pyobj) : result string :=
  match v with
  | PList items => rbind (all_str items) (fun parts => Ok (join sep parts))
  | PStr s => Ok (join sep (str_chars s))
  | PDict entries => Ok (join sep (keys entries))
  | PNone | PBool _ | PInt _ => Raise TypeError
  end.

(** [res.get("valid")] as a condition *)
Definition get_truthy (res : dict) (k : string) : bool :=
  match dict_get res k with
  | Some v => truthy v
  | None => false
  end.

(** The body of the loop [for res in results]. *)
Definition print_result (res : dict) : M unit :=
  if negb (get_truthy res "valid") then
    input <- lift (subscript res "input") ;;
    print ("[!] " ++ py_str input ++ ": Invalid – "
           ++ py_str (dict_get_default res "error" (PStr EmptyString)))
  else
    intl <- lift (subscript res "international_format") ;;
    head <- lift (str_concat nl intl) ;;
    print head ;;;
    region <- lift (subscript res "region") ;;
    code <- lift (subscript res "country_code") ;;
    print ("  Region      : " ++ py_str region ++ " ( +" ++ py_str code ++ " )") ;;;
    carrier <- lift (subscript res "carrier") ;;
    print ("  Carrier     : "
           ++ py_str (if truthy carrier then carrier else PStr "Unknown")) ;;;
    type <- lift (subscript res "type") ;;
    print ("  Type        : " ++ py_str type) ;;;
    zones <- lift (subscript res "timezones") ;;
    shown <- lift (if truthy zones
                   then rbind (subscript res "timezones") (str_join ", ")
                   else Ok "Unknown") ;;
    print ("  Time‑zones  : " ++ shown).

(** The block [if args.output:] at the end of [cli], on the results. *)
Definition export_results (args : Namespace) (results : list dict) : M unit :=
  match output args with
  | Some o =>
      if negb (String.eqb o EmptyString) then
        out_path <- lift (expanduser o) ;;
        match format args with
        | csv => write_csv out_path results
        | json => write_json out_path results
        end ;;;
        shown <- lift (resolve out_path) ;;
        print (nl ++ "[+] Results written to " ++ shown)
      else ret tt
  | None => ret tt
  end.

Definition cli (args : Namespace) : M unit :=
  results <- lift (list_comp basic_lookup (numbers args)) ;;
  for_each print_result results ;;;
  export_results args results.

End Cli.

(** ** [json.loads]

    The decoder of the [json] module with its defaults, on documents
    without fractional numbers: white space is space, tab, line feed and
    carriage return; a string is read in strict mode (a raw control
    character is an error); an object becomes a [dict], a later
    occurrence of a key overwriting the earlier value; an array becomes
    a [list]; an integer literal becomes an [int].  [None] stands for
    [JSONDecodeError], and also for the two results the value type does
    not hold: a [float] (a literal with a fraction or an exponent, [NaN],
    [Infinity]) and a [str] with an unpaired surrogate.  The recursive
    functions count down a fuel that [json_loads] sets above the length
    of the document. *)











Definition digit_of (c : ascii) : option (Decimal.uint -> Decimal.uint) :=
  match c with
  | "0" => Some Decimal.D0 | "1" => Some Decimal.D1 | "2" => Some Decimal.D2
  | "3" => Some Decimal.D3 | "4" => Some Decimal.D4 | "5" => Some Decimal.D5
  | "6" => Some Decimal.D6 | "7" => Some Decimal.D7 | "8" => Some Decimal.D8
  | "9" => Some Decimal.D9 | _ => None
  end%char.

Definition is_digit (c : ascii) : bool :=
  match digit_of c with Some _ => true | None => false end.







(** * The vocabulary of the statements *)

(** The line types of the data model, by name. *)
Definition line_type_names : list string :=
  [ "MOBILE"; "FIXED_LINE"; "FIXED_LINE_OR_MOBILE"; "TOLL_FREE";
    "PREMIUM_RATE"; "SHARED_COST"; "VOIP"; "PERSONAL_NUMBER"; "PAGER";
    "UAN"; "VOICEMAIL"; "UNKNOWN" ].

(** The name the three-level fallback arrives at. *)
Definition fallback_name {L : PhoneLib} (code : Z) : string :=
  match PhoneNumberType_name code with
  | Ok name => name
  | Raise _ =>
      match VALUES_TO_NAMES with
      | Ok table => table_get table code "UNKNOWN"
      | Raise _ => str_of_int code
      end
  end.

(** The record of a string that parses, field by field. *)
Definition full_record {L : PhoneLib} (raw_number : string)
  (parsed : PhoneNumber) (type_name : string) : dict :=
  [ ("input", PStr raw_number);
    ("valid", PBool (is_valid_number parsed && is_possible_number parsed));
    ("possible", PBool (is_possible_number parsed));
    ("international_format", PStr (format_number parsed INTERNATIONAL));
    ("e164_format", PStr (format_number parsed E164));
    ("country_code", PInt (country_code parsed));
    ("region", PStr (description_for_number parsed "en"));
    ("carrier", PStr (name_for_number parsed "en"));
    ("timezones", PList (map PStr (time_zones_for_number parsed)));
    ("type", PStr type_name) ].

(** The world after [text] went to standard output. *)
Definition printed (w : World) (text : string) : World :=
  {| stdout := stdout w ++ text; files := files w |}.

(** The text that [print_result] sends to standard output for a record
    that is not valid, and for one that is. *)
Definition warning_text (input error : string) : string :=
  "[!] " ++ input ++ ": Invalid – " ++ error ++ nl.

Definition report_text (intl region : string) (code : Z)
  (carrier type : string) (zones : list string) : string :=
  nl ++ intl ++ nl
  ++ "  Region      : " ++ region ++ " ( +" ++ str_of_int code ++ " )" ++ nl
  ++ "  Carrier     : "
  ++ (if String.eqb carrier EmptyString then "Unknown" else carrier) ++ nl
  ++ "  Type        : " ++ type ++ nl
  ++ "  Time‑zones  : "
  ++ match zones with [] => "Unknown" | _ :: _ => join ", " zones end ++ nl.

(** The cells [DictWriter] writes for a row: the value of each field
    name, the empty string where the row lacks it. *)
Definition csv_row (fieldnames : list string) (rowdict : dict) : list pyobj :=
  map (fun key => dict_get_default rowdict key (PStr EmptyString)) fieldnames.

(** The file at [path] holds the CSV rows [rows]; but for that file the
    world is [w0]. *)
Definition csv_state (w0 : World) (path : string) (rows : list (list pyobj))
  (w : World) : Prop :=
  stdout w = stdout w0 /\
  files w path = Some (CsvFile rows) /\
  forall p, p <> path -> files w p = files w0 p.




(** What may follow a value in the output of the encoder: nothing, a
    comma or a line feed. *)
Definition value_end (rest : string) : bool :=
  match rest with
  | EmptyString => true
  | String c _ => Ascii.eqb c "," || Ascii.eqb c LF
  end.





(** Induction on values, with the hypothesis for every item of a list and
    every value of a dict. *)
Section PyobjInd.

Variable P : pyobj -> Prop.
Hypothesis HNone : P PNone.
Hypothesis HBool : forall b, P (PBool b).
Hypothesis HInt : forall z, P (PInt z).
Hypothesis HStr : forall s, P (PStr s).
Hypothesis HList : forall items, Forall P items -> P (PList items).
Hypothesis HDict :
  forall entries, Forall (fun kv => P (snd kv)) entries -> P (PDict entries).


End PyobjInd.

(** ** A concrete instance

    A small stand-in for the package, enough to run the program on: two
    strings parse, every other string is rejected with the message the
    package gives for text that is no phone number.  [PhoneNumberType]
    is a parameter: in the released package it is a plain class of
    integer constants, so calling it raises and the attribute
    [_VALUES_TO_NAMES] does not exist. *)
Module Demo.

Definition number : string := "+12025550123".
Definition short_number : string := "+12025550".
Definition message : string :=
  "(1) The string supplied did not seem to be a phone number.".

Definition parse_demo (s : string) : string + string :=
  if String.eqb s number then inl s
  else if String.eqb s short_number then inl s
  else inr message.

Definition lib (names : Z -> result string)
  (table : result (list (Z * string))) : PhoneLib :=
  {| PhoneNumber := string;
     parse_number := parse_demo;
     is_valid_number := fun p => String.eqb p number;
     is_possible_number := fun _ => true;
     format_number := fun p f =>
       match f with
       | E164 => p
       | INTERNATIONAL =>
           if String.eqb p number then "+1 202-555-0123" else "+1 2025550"
       end;
     country_code := fun _ => 1%Z;
     description_for_number := fun _ _ => "Washington D.C.";
     name_for_number := fun _ _ => EmptyString;
     time_zones_for_number := fun _ => ["America/New_York"];
     number_type := fun _ => 2%Z;
     PhoneNumberType_name := names;
     VALUES_TO_NAMES := table |}.

(** The package as released. *)
Definition released : PhoneLib :=
  lib (fun _ => Raise TypeError) (Raise OtherException).

(** A package whose [PhoneNumberType] is an enumeration. *)
Definition enum_names : list (Z * string) :=
  [ (0, "FIXED_LINE"); (1, "MOBILE"); (2, "FIXED_LINE_OR_MOBILE");
    (3, "TOLL_FREE"); (4, "PREMIUM_RATE"); (5, "SHARED_COST"); (6, "VOIP");
    (7, "PERSONAL_NUMBER"); (8, "PAGER"); (9, "UAN"); (10, "VOICEMAIL");
    (99, "UNKNOWN") ]%Z.

Definition with_enum : PhoneLib :=
  lib (fun code => Ok (table_get enum_names code "UNKNOWN"))
      (Raise OtherException).

(** A machine whose standard output is encoded in strict UTF-8, whose
    home directory is known and whose paths can all be opened and
    written, but for the ones under [/nowhere]. *)
Definition env : PyEnv :=
  {| repr := fun _ => "[...]";
     str_chars := fun s =>
       map (fun c => String c EmptyString) (list_ascii_of_string s);
     expanduser := fun p => Ok p;
     resolve := fun p => Ok ("/srv/" ++ p);
     stdout_fault := fun text =>
       if utf8_valid text then None else Some UnicodeEncodeError;
     open_fault := fun path =>
       if String.prefix "/nowhere/" path then Some OSError else None;
     write_fault := fun _ => None |}.

(** The same machine under the C locale, where standard output escapes
    what it cannot encode and so accepts every text. *)
Definition posix_env : PyEnv :=
  {| repr := fun _ => "[...]";
     str_chars := fun s =>
       map (fun c => String c EmptyString) (list_ascii_of_string s);
     expanduser := fun p => Ok p;
     resolve := fun p => Ok ("/srv/" ++ p);
     stdout_fault := fun _ => None;
     open_fault := fun path =>
       if String.prefix "/nowhere/" path then Some OSError else None;
     write_fault := fun _ => None |}.

(** An argument of the command line that is the single byte FF. *)
Definition bad_input : string := String "255"%char EmptyString.

Definition w0 : World := {| stdout := EmptyString; files := fun _ => None |}.

Definition number_record : dict :=
  [ ("input", PStr number); ("valid", PBool true); ("possible", PBool true);
    ("international_format", PStr "+1 202-555-0123");
    ("e164_format", PStr number); ("country_code", PInt 1);
    ("region", PStr "Washington D.C."); ("carrier", PStr EmptyString);
    ("timezones", PList [PStr "America/New_York"]); ("type", PStr "2") ].

Definition garbage_record : dict :=
  [ ("input", PStr "not-a-number"); ("valid", PBool false);
    ("error", PStr message) ].

Definition bad_record : dict :=
  [ ("input", PStr bad_input); ("valid", PBool false);
    ("error", PStr message) ].

End Demo.

(** ** The vocabulary of the whole run *)

(** Standard output accepts the text of a [print]. *)
Definition accepted {E : PyEnv} (line : string) : Prop :=
  stdout_fault line = None.

(** The arguments of the [print] calls that the console loop makes for
    one input string: the five lines of the report of a number that is
    valid, the warning with the parser's message for a string that does
    not parse, the warning without a message for a number that parses
    but is not valid. *)
Definition console_lines {L : PhoneLib} (s : string) : list string :=
  match parse_number s with
  | inr msg => [ "[!] " ++ s ++ ": Invalid – " ++ msg ]
  | inl parsed =>
      if is_valid_number parsed && is_possible_number parsed
      then
        [ nl ++ format_number parsed INTERNATIONAL;
          "  Region      : " ++ description_for_number parsed "en"
            ++ " ( +" ++ str_of_int (country_code parsed) ++ " )";
          "  Carrier     : "
            ++ (if String.eqb (name_for_number parsed "en") EmptyString
                then "Unknown" else name_for_number parsed "en");
          "  Type        : " ++ fallback_name (number_type parsed);
          "  Time‑zones  : "
            ++ match time_zones_for_number parsed with
               | [] => "Unknown"
               | _ :: _ => join ", " (time_zones_for_number parsed)
               end ]
      else [ "[!] " ++ s ++ ": Invalid – " ++ EmptyString ]
  end.

(** The texts of a list, one after the other. *)
Fixpoint concat_texts (texts : list string) : string :=
  match texts with
  | [] => EmptyString
  | t :: rest => t ++ concat_texts rest
  end.

(** What printed lines add to standard output. *)
Definition text_of_lines (lines : list string) : string :=
  concat_texts (map (fun line => line ++ nl) lines).

(** What the console loop adds to standard output for one input string. *)
Definition console_text {L : PhoneLib} (s : string) : string :=
  match parse_number s with
  | inr msg => warning_text s msg
  | inl parsed =>
      if is_valid_number parsed && is_possible_number parsed
      then report_text (format_number parsed INTERNATIONAL)
                       (description_for_number parsed "en")
                       (country_code parsed)
                       (name_for_number parsed "en")
                       (fallback_name (number_type parsed))
                       (time_zones_for_number parsed)
      else warning_text s EmptyString
  end.

(** The same text, read off the fields of a record. *)
Definition text_field (res : dict) (k : string) : string :=
  match dict_get res k with
  | Some (PStr s) => s
  | _ => EmptyString
  end.

Definition code_field (res : dict) : Z :=
  match dict_get res "country_code" with
  | Some (PInt z) => z
  | _ => 0%Z
  end.

Definition zones_field (res : dict) : list string :=
  match dict_get res "timezones" with
  | Some (PList items) =>
      flat_map (fun v => match v with PStr s => [s] | _ => [] end) items
  | _ => []
  end.

Definition record_text (res : dict) : string :=
  if get_truthy res "valid"
  then report_text (text_field res "international_format")
                   (text_field res "region") (code_field res)
                   (text_field res "carrier") (text_field res "type")
                   (zones_field res)
  else warning_text (text_field res "input") (text_field res "error").


(** Does the parser accept the string? *)
Definition parses {L : PhoneLib} (s : string) : bool :=
  match parse_number s with
  | inl _ => true
  | inr _ => false
  end.

(** A computation leaves standard output and every file but the one at
    [path] as they are. *)
Definition touches_only {A} (path : string) (m : M A) : Prop :=
  forall w,
    stdout (snd (m w)) = stdout w /\
    forall p, p <> path -> files (snd (m w)) p = files w p.

(** A computation leaves the file at [p] as it is. *)
Definition keeps_file {A} (p : string) (m : M A) : Prop :=
  forall w, files (snd (m w)) p = files w p.

(** A computation raises in every world. *)
Definition raises {A} (m : M A) : Prop :=
  forall w, exists e w', m w = (Raise e, w').


(** A row fits the field names when it has no key outside them. *)
Definition fits (fieldnames : list string) (rowdict : dict) : bool :=
  forallb (fun k => mem k fieldnames) (keys rowdict).

(** What stops [DictWriter] at a row, if anything: a key outside the
    field names, or a cell that UTF-8 cannot encode. *)
Definition row_fault (fieldnames : list string) (rowdict : dict)
  : option exn :=
  if fits fieldnames rowdict then
    if row_encodable (csv_row fieldnames rowdict) then None
    else Some UnicodeEncodeError
  else Some ValueError.

(** The rows up to the first one that stops the writer, and what stops
    it there. *)
Fixpoint written_prefix (fieldnames : list string) (rowdicts : list dict)
  : list dict :=
  match rowdicts with
  | [] => []
  | r :: rest =>
      match row_fault fieldnames r with
      | None => r :: written_prefix fieldnames rest
      | Some _ => []
      end
  end.

Fixpoint first_fault (fieldnames : list string) (rowdicts : list dict)
  : option exn :=
  match rowdicts with
  | [] => None
  | r :: rest =>
      match row_fault fieldnames r with
      | None => first_fault fieldnames rest
      | Some e => Some e
      end
  end.

(** The outcome of a computation that a fault may stop. *)
Definition outcome (fault : option exn) : result unit :=
  match fault with
  | None => Ok tt
  | Some e => Raise e
  end.

(** Runs on the concrete instance. *)
Module DemoRun.

Definition console_only : Namespace :=
  {| numbers := [Demo.number; "not-a-number"];
     output := None;
     format := json |}.



Definition to_csv_mixed : Namespace :=
  {| numbers := [Demo.number; "not-a-number"];
     output := Some "out.csv";
     format := csv |}.

Definition bad_to_json : Namespace :=
  {| numbers := [Demo.bad_input];
     output := Some "out.json";
     format := json |}.

Definition bad_console : Namespace :=
  {| numbers := [Demo.bad_input];
     output := None;
     format := json |}.

Definition to_nowhere : Namespace :=
  {| numbers := [Demo.number];
     output := Some "/nowhere/out.json";
     format := json |}.

End DemoRun.

(** * Properties *)

(** ** The lookup *)

Section LookupFacts.

Context {L : PhoneLib}.

(** The parser raises [NumberParseException] and nothing else. *)
Lemma parse_raises (s : string) (e : exn) :
  parse s = Raise e -> exists msg, e = NumberParseException msg.
Proof.
  unfold parse. destruct (parse_number s) as [parsed|msg]; [discriminate|].
  intros H. injection H as <-. now exists msg.
Qed.

Lemma phone_type_name_ok (parsed : PhoneNumber) :
  _phone_type_name parsed = Ok (fallback_name (number_type parsed)).
Proof.
  unfold _phone_type_name, fallback_name, try_except, rbind.
  destruct (PhoneNumberType_name (number_type parsed)); [reflexivity|].
  destruct VALUES_TO_NAMES; reflexivity.
Qed.

Lemma basic_lookup_parsed (s : string) (parsed : PhoneNumber) :
  parse s = Ok parsed ->
  basic_lookup s = Ok (full_record s parsed (fallback_name (number_type parsed))).
Proof.
  intros Hp. unfold basic_lookup. rewrite Hp, phone_type_name_ok.
  reflexivity.
Qed.

Lemma basic_lookup_unparsed (s msg : string) :
  parse s = Raise (NumberParseException msg) ->
  basic_lookup s =
  Ok [ ("input", PStr s); ("valid", PBool false); ("error", PStr msg) ].
Proof.
  intros Hp. unfold basic_lookup. rewrite Hp. reflexivity.
Qed.

(** Every string has a record, of one of the two shapes. *)
Lemma basic_lookup_cases (s : string) :
  (exists parsed, parse s = Ok parsed /\
     basic_lookup s =
     Ok (full_record s parsed (fallback_name (number_type parsed))))
  \/
  (exists msg, parse s = Raise (NumberParseException msg) /\
     basic_lookup s =
     Ok [ ("input", PStr s); ("valid", PBool false); ("error", PStr msg) ]).
Proof.
  destruct (parse s) as [parsed|e] eqn:Hp.
  - left. exists parsed. split; [reflexivity|]. now apply basic_lookup_parsed.
  - right. destruct (parse_raises _ _ Hp) as [msg ->].
    exists msg. split; [reflexivity|]. now apply basic_lookup_unparsed.
Qed.

Lemma basic_lookup_ok (s : string) : exists rec, basic_lookup s = Ok rec.
Proof.
  destruct (basic_lookup_cases s) as [(p & _ & H)|(m & _ & H)]; eauto.
Qed.


(** C2: for a string the parser accepts, the [valid] field is the
    conjunction of [is_valid_number] and [is_possible_number]. *)
Theorem valid_is_conjunction (s : string) (parsed : PhoneNumber) :
  parse s = Ok parsed ->
  exists rec,
    basic_lookup s = Ok rec /\
    dict_get rec "valid"
    = Some (PBool (is_valid_number parsed && is_possible_number parsed)).
Proof.
  intros Hp. eexists. split; [exact (basic_lookup_parsed _ _ Hp)|reflexivity].
Qed.

(** C9: in the record of a string the parser accepts, [valid] is true
    only if [possible] is true. *)
Theorem valid_implies_possible (s : string) (parsed : PhoneNumber) (rec : dict) :
  parse s = Ok parsed ->
  basic_lookup s = Ok rec ->
  dict_get rec "valid" = Some (PBool true) ->
  dict_get rec "possible" = Some (PBool true).
Proof.
  intros Hp Hrec Hv. rewrite (basic_lookup_parsed _ _ Hp) in Hrec.
  injection Hrec as <-. cbn in Hv |- *.
  injection Hv as Hv. apply andb_true_iff in Hv as [_ ->]. reflexivity.
Qed.

End LookupFacts.

(** ** Decimal numerals *)

Lemma str_of_int_head (z : Z) :
  exists c r, str_of_int z = String c r /\
              (c = "-"%char \/ is_digit c = true).
Proof.
  unfold str_of_int, NilZero.string_of_int, NilZero.string_of_uint.
  destruct (Z.to_int z) as [d|d].
  - destruct d; cbn; eauto.
  - eauto.
Qed.

Lemma str_of_int_not_a_name (z : Z) : ~ In (str_of_int z) line_type_names.
Proof.
  destruct (str_of_int_head z) as (c & r & -> & Hc). cbn. intros H.
  repeat (destruct H as [H|H];
          [injection H as <- _; destruct Hc; discriminate|]).
  exact H.
Qed.

Section PipelineFacts.

Context {L : PhoneLib}.

(** C5 (amended): for a string the parser accepts, the [type] field is
    the name the enumeration gives the type code when that resolution
    succeeds; otherwise the name the table [_VALUES_TO_NAMES] gives the
    code, [UNKNOWN] for a code the table lacks; otherwise the decimal
    numeral of the code, which is none of the twelve names. *)
Theorem type_field_fallback (s : string) (parsed : PhoneNumber) :
  parse s = Ok parsed ->
  exists rec,
    basic_lookup s = Ok rec /\
    dict_get rec "type"
    = Some (PStr
        match PhoneNumberType_name (number_type parsed) with
        | Ok name => name
        | Raise _ =>
            match VALUES_TO_NAMES with
            | Ok table => table_get table (number_type parsed) "UNKNOWN"
            | Raise _ => str_of_int (number_type parsed)
            end
        end) /\
    ~ In (str_of_int (number_type parsed)) line_type_names.
Proof.
  intros Hp. eexists. split; [exact (basic_lookup_parsed _ _ Hp)|].
  split; [reflexivity|apply str_of_int_not_a_name].
Qed.

Lemma list_comp_from_map {A B} (f : A -> result B) (xs : list A) :
  forall (ys acc : list B),
    map f xs = map Ok ys ->
    list_comp_from acc f xs = Ok (acc ++ ys)%list.
Proof.
  induction xs as [|x xs IH]; intros [|y ys] acc H; try discriminate.
  - cbn. now rewrite List.app_nil_r.
  - cbn in H. injection H as Hx Hxs. cbn. rewrite Hx. cbn.
    rewrite (IH ys _ Hxs), <- List.app_assoc. reflexivity.
Qed.

Lemma lookups_exist (nums : list string) :
  exists results, map basic_lookup nums = map Ok results.
Proof.
  induction nums as [|s nums [results IH]].
  - now exists [].
  - destruct (basic_lookup_ok s) as [rec Hrec].
    exists (rec :: results). cbn. now rewrite Hrec, IH.
Qed.

Lemma list_comp_lookups (nums : list string) :
  exists results,
    map basic_lookup nums = map Ok results /\
    list_comp basic_lookup nums = Ok results.
Proof.
  destruct (lookups_exist nums) as [results H]. exists results.
  split; [exact H|exact (list_comp_from_map _ _ _ [] H)].
Qed.

End PipelineFacts.

(** ** Strings *)

Lemma append_assoc (a b c : string) : (a ++ b) ++ c = a ++ (b ++ c).
Proof. induction a as [|x a IH]; cbn; [reflexivity|now rewrite IH]. Qed.

Lemma append_nil_r (a : string) : a ++ EmptyString = a.
Proof. induction a as [|x a IH]; cbn; [reflexivity|now rewrite IH]. Qed.


(** ** Dictionaries *)

Lemma mem_In (k : string) (ks : list string) : mem k ks = true <-> In k ks.
Proof.
  unfold mem. rewrite existsb_exists. split.
  - intros (x & Hx & Hk). apply String.eqb_eq in Hk. now subst.
  - intros H. exists k. split; [exact H|apply String.eqb_refl].
Qed.

Lemma dict_get_set (d : dict) (k k' : string) (v : pyobj) :
  dict_get (dict_set d k v) k'
  = if String.eqb k' k then Some v else dict_get d k'.
Proof.
  induction d as [|[k0 v0] d IH]; cbn.
  - reflexivity.
  - destruct (String.eqb_spec k k0) as [->|Hk]; cbn.
    + destruct (String.eqb k' k0); reflexivity.
    + rewrite IH. destruct (String.eqb_spec k' k0) as [->|Hk'];
        [|reflexivity].
      destruct (String.eqb_spec k0 k); [congruence|reflexivity].
Qed.

Lemma keys_set (d : dict) (k : string) (v : pyobj) :
  keys (dict_set d k v)
  = if mem k (keys d) then keys d else (keys d ++ [k])%list.
Proof.
  unfold keys, mem. induction d as [|[k0 v0] d IH]; cbn; [reflexivity|].
  destruct (String.eqb k k0); cbn; [reflexivity|].
  rewrite IH. now destruct (existsb (String.eqb k) (map fst d)).
Qed.


(** ** Computations *)

Lemma bind_ext {A B} (m m' : M A) (k k' : A -> M B) (w : World) :
  m w = m' w ->
  (forall a w', k a w' = k' a w') ->
  bind m k w = bind m' k' w.
Proof.
  intros Hm Hk. unfold bind. rewrite Hm.
  destruct (m' w) as [[a|e] w']; [apply Hk|reflexivity].
Qed.

Lemma bind_ret_unit (m : M unit) (w : World) : (m ;;; ret tt) w = m w.
Proof. unfold bind, ret. now destruct (m w) as [[[]|e] w']. Qed.

Lemma bind_lift_ok {A B} (a : A) (k : A -> M B) (w : World) :
  bind (lift (Ok a)) k w = k a w.
Proof. reflexivity. Qed.

Lemma bind_assoc {A B C} (m : M A) (k : A -> M B) (h : B -> M C) (w : World) :
  bind (bind m k) h w = bind m (fun a => bind (k a) h) w.
Proof. unfold bind. now destruct (m w) as [[a|e] w']. Qed.

Lemma for_each_app {A} (body : A -> M unit) (xs ys : list A) (w : World) :
  for_each body (xs ++ ys)%list w
  = (for_each body xs ;;; for_each body ys) w.
Proof.
  revert w. induction xs as [|x xs IH]; intros w; [reflexivity|].
  cbn [for_each app]. rewrite bind_assoc.
  apply bind_ext; [reflexivity|]. intros _ w'. apply IH.
Qed.

(** ** The console printer *)

Lemma printed_printed (w : World) (a b : string) :
  printed (printed w a) b = printed w (a ++ b).
Proof. unfold printed; cbn. now rewrite append_assoc. Qed.

Lemma printed_nil (w : World) : printed w EmptyString = w.
Proof. unfold printed. rewrite append_nil_r. now destruct w. Qed.

Section ConsoleFacts.

Context {L : PhoneLib} {E : PyEnv}.

Lemma print_accepted (s : string) (w : World) :
  accepted s -> print s w = (Ok tt, printed w (s ++ nl)).
Proof. unfold accepted, print. now intros ->. Qed.

Lemma print_refused (s : string) (e : exn) (w : World) :
  stdout_fault s = Some e -> print s w = (Raise e, w).
Proof. unfold print. now intros ->. Qed.

(** Printing changes no file and only adds to standard output. *)
Lemma print_lines_adds (lines : list string) :
  forall w, exists text,
    stdout (snd (for_each print lines w)) = stdout w ++ text /\
    files (snd (for_each print lines w)) = files w.
Proof.
  induction lines as [|l lines IH]; intros w.
  - exists EmptyString. cbn. now rewrite append_nil_r.
  - cbn [for_each]. unfold bind.
    destruct (stdout_fault l) as [e|] eqn:Hl.
    + rewrite (print_refused l e w Hl).
      exists EmptyString. cbn. now rewrite append_nil_r.
    + rewrite (print_accepted l w Hl).
      destruct (IH (printed w (l ++ nl))) as (text & Hs & Hf).
      exists ((l ++ nl) ++ text). rewrite Hs, Hf. cbn.
      now rewrite !append_assoc.
Qed.

Lemma print_lines_accepted (lines : list string) :
  Forall accepted lines ->
  forall w, for_each print lines w = (Ok tt, printed w (text_of_lines lines)).
Proof.
  induction 1 as [|l lines Hl _ IH]; intros w.
  - cbn. now rewrite printed_nil.
  - cbn [for_each]. unfold bind. rewrite (print_accepted l w Hl), IH.
    unfold text_of_lines. cbn [map concat_texts].
    now rewrite printed_printed.
Qed.

Lemma all_str_map (zones : list string) : all_str (map PStr zones) = Ok zones.
Proof.
  induction zones as [|z zones IH]; cbn; [reflexivity|now rewrite IH].
Qed.

Lemma result_has_input (nums : list string) (results : list dict) (res : dict) :
  list_comp basic_lookup nums = Ok results ->
  In res results ->
  exists s, In s nums /\ basic_lookup s = Ok res.
Proof.
  intros Hres Hin.
  destruct (list_comp_lookups nums) as (results' & Hmap & H').
  rewrite Hres in H'. injection H' as <-.
  apply (in_map Ok) in Hin. rewrite <- Hmap in Hin.
  apply in_map_iff in Hin as (s & Hs & Hin). eauto.
Qed.

Lemma parses_accepted (s : string) (parsed : PhoneNumber) :
  parse s = Ok parsed -> parse_number s = inl parsed /\ parses s = true.
Proof.
  unfold parse, parses. destruct (parse_number s); [|discriminate].
  intros H. injection H as <-. now split.
Qed.

Lemma parses_rejected (s msg : string) :
  parse s = Raise (NumberParseException msg) ->
  parse_number s = inr msg /\ parses s = false.
Proof.
  unfold parse, parses. destruct (parse_number s); [discriminate|].
  intros H. injection H as <-. now split.
Qed.



(** The loop body on a record that is not valid: one [print]. *)
Lemma print_result_warning (res : dict) (input : string) (w : World) :
  get_truthy res "valid" = false ->
  dict_get res "input" = Some (PStr input) ->
  print_result res w
  = print ("[!] " ++ input ++ ": Invalid – "
           ++ py_str (dict_get_default res "error" (PStr EmptyString))) w.
Proof.
  intros Hv Hi. unfold print_result, subscript. rewrite Hv, Hi. reflexivity.
Qed.

(** The loop body on a record that is valid: five [print]s. *)
Lemma print_result_report (res : dict) (intl region : string) (code : Z)
  (carrier type : string) (zones : list string) (w : World) :
  get_truthy res "valid" = true ->
  dict_get res "international_format" = Some (PStr intl) ->
  dict_get res "region" = Some (PStr region) ->
  dict_get res "country_code" = Some (PInt code) ->
  dict_get res "carrier" = Some (PStr carrier) ->
  dict_get res "type" = Some (PStr type) ->
  dict_get res "timezones" = Some (PList (map PStr zones)) ->
  print_result res w
  = for_each print
      [ nl ++ intl;
        "  Region      : " ++ region ++ " ( +" ++ str_of_int code ++ " )";
        "  Carrier     : "
          ++ (if String.eqb carrier EmptyString then "Unknown" else carrier);
        "  Type        : " ++ type;
        "  Time‑zones  : "
          ++ match zones with [] => "Unknown" | _ :: _ => join ", " zones end ]
      w.
Proof.
  intros Hv Hi Hr Hc Hca Ht Hz. unfold print_result, subscript.
  rewrite Hv, Hi, Hr, Hc, Hca, Ht, Hz. cbn [negb for_each]. cbv beta iota.
  assert (Hzones :
    (if truthy (PList (map PStr zones))
     then rbind (Ok (PList (map PStr zones))) (str_join ", ")
     else Ok "Unknown")
    = Ok match zones with [] => "Unknown" | _ :: _ => join ", " zones end).
  { destruct zones as [|z zones]; [reflexivity|].
    cbn [truthy rbind str_join]. rewrite (all_str_map (z :: zones)).
    reflexivity. }
  assert (Hcar : py_str (if truthy (PStr carrier) then PStr carrier
                         else PStr "Unknown")
                 = if String.eqb carrier EmptyString then "Unknown" else carrier).
  { cbn [truthy]. now destruct (String.eqb carrier EmptyString). }
  rewrite !bind_lift_ok. cbv beta. cbn [str_concat]. rewrite bind_lift_ok.
  cbv beta.
  apply bind_ext; [reflexivity|intros _ w1].
  rewrite !bind_lift_ok. cbv beta.
  apply bind_ext; [reflexivity|intros _ w2].
  rewrite bind_lift_ok. cbv beta.
  apply bind_ext; [now rewrite Hcar|intros _ w3].
  rewrite bind_lift_ok. cbv beta.
  apply bind_ext; [reflexivity|intros _ w4].
  rewrite bind_lift_ok. cbv beta. rewrite Hzones, bind_lift_ok. cbv beta.
  symmetry. apply bind_ret_unit.
Qed.

Lemma strs_flat_map (zones : list string) :
  flat_map (fun v => match v with PStr s => [s] | _ => [] end)
           (map PStr zones) = zones.
Proof. induction zones as [|z zones IH]; cbn; [reflexivity|now rewrite IH]. Qed.

Lemma text_of_lines_app (xs ys : list string) :
  text_of_lines (xs ++ ys)%list = text_of_lines xs ++ text_of_lines ys.
Proof.
  unfold text_of_lines. induction xs as [|x xs IH]; cbn; [reflexivity|].
  now rewrite IH, !append_assoc.
Qed.

(** The lines of an input, each with its line break, are its text. *)
Lemma console_lines_text (s : string) :
  text_of_lines (console_lines s) = console_text s.
Proof.
  unfold console_lines, console_text, text_of_lines, warning_text, report_text.
  destruct (parse_number s) as [p|m];
    [destruct (is_valid_number p && is_possible_number p)|];
    cbn [map concat_texts]; now rewrite !append_assoc, ?append_nil_r.
Qed.

Lemma console_lines_texts (nums : list string) :
  text_of_lines (flat_map console_lines nums)
  = concat_texts (map console_text nums).
Proof.
  induction nums as [|s nums IH]; [reflexivity|].
  cbn [flat_map map concat_texts].
  now rewrite text_of_lines_app, console_lines_text, IH.
Qed.

(** The text of a record of a lookup is the text of the input. *)
Lemma record_text_lookup (s : string) (res : dict) :
  basic_lookup s = Ok res -> record_text res = console_text s.
Proof.
  intros Hs. unfold console_text.
  destruct (basic_lookup_cases s) as [(p & Hp & H)|(m & Hp & H)];
    rewrite H in Hs; injection Hs as <-.
  - destruct (parses_accepted _ _ Hp) as [-> _].
    unfold record_text, get_truthy, text_field, code_field, zones_field.
    cbn [full_record dict_get String.eqb Ascii.eqb Bool.eqb truthy].
    rewrite strs_flat_map. reflexivity.
  - destruct (parses_rejected _ _ Hp) as [-> _]. reflexivity.
Qed.

Lemma record_texts_lookups (nums : list string) :
  forall results : list dict,
    map basic_lookup nums = map Ok results ->
    concat_texts (map record_text results)
    = concat_texts (map console_text nums).
Proof.
  induction nums as [|s nums IH]; intros [|res results] Hmap;
    try discriminate; [reflexivity|].
  cbn in Hmap. injection Hmap as Hs Hmap. cbn [map concat_texts].
  now rewrite (record_text_lookup s res Hs), (IH results Hmap).
Qed.

(** The loop body on the record of a lookup prints the lines of the
    input. *)
Lemma print_result_lines (s : string) (res : dict) (w : World) :
  basic_lookup s = Ok res ->
  print_result res w = for_each print (console_lines s) w.
Proof.
  intros Hs. unfold console_lines.
  destruct (basic_lookup_cases s) as [(p & Hp & H)|(m & Hp & H)];
    rewrite H in Hs; injection Hs as <-.
  - destruct (parses_accepted _ _ Hp) as [-> _].
    destruct (is_valid_number p && is_possible_number p) eqn:Hv.
    + apply print_result_report; try reflexivity.
      unfold get_truthy; cbn. exact Hv.
    + rewrite (print_result_warning _ s); [|unfold get_truthy; cbn; exact Hv
                                           |reflexivity].
      cbn [for_each]. symmetry. apply bind_ret_unit.
  - destruct (parses_rejected _ _ Hp) as [-> _].
    rewrite (print_result_warning _ s); [|reflexivity|reflexivity].
    cbn [for_each]. symmetry. apply bind_ret_unit.
Qed.

(** The loop over the results prints the lines of the inputs, in the
    order of the inputs. *)
Lemma console_loop_lines (nums : list string) :
  forall (results : list dict) (w : World),
    map basic_lookup nums = map Ok results ->
    for_each print_result results w
    = for_each print (flat_map console_lines nums) w.
Proof.
  induction nums as [|s nums IH]; intros [|res results] w Hmap;
    try discriminate; [reflexivity|].
  cbn in Hmap. injection Hmap as Hs Hmap.
  cbn [for_each flat_map]. rewrite for_each_app.
  apply bind_ext; [now apply print_result_lines|].
  intros _ w'. now apply IH.
Qed.

Lemma lines_accepted (nums : list string) :
  (forall s, In s nums -> Forall accepted (console_lines s)) ->
  Forall accepted (flat_map console_lines nums).
Proof.
  intros H. apply Forall_flat_map. apply Forall_forall. exact H.
Qed.

(** Where standard output accepts the lines, the loop adds the texts of
    the inputs and returns. *)
Lemma console_loop_text (nums : list string) (results : list dict) (w : World) :
  map basic_lookup nums = map Ok results ->
  (forall s, In s nums -> Forall accepted (console_lines s)) ->
  for_each print_result results w
  = (Ok tt, printed w (concat_texts (map console_text nums))).
Proof.
  intros Hmap Hacc. rewrite (console_loop_lines nums results w Hmap).
  rewrite (print_lines_accepted _ (lines_accepted nums Hacc)).
  now rewrite console_lines_texts.
Qed.

(** A run is the lookups, the loop over their records and the export. *)
Lemma cli_unfold (args : Namespace) (results : list dict) (w : World) :
  list_comp basic_lookup (numbers args) = Ok results ->
  cli args w
  = (for_each print_result results ;;; export_results args results) w.
Proof. intros Hres. unfold cli, bind at 1, lift. now rewrite Hres. Qed.

(** Where standard output accepts the lines of the inputs, a run is the
    export in the world that has their texts on standard output. *)
Lemma cli_after_loop (args : Namespace) (results : list dict) (w : World) :
  map basic_lookup (numbers args) = map Ok results ->
  (forall s, In s (numbers args) -> Forall accepted (console_lines s)) ->
  cli args w
  = export_results args results
      (printed w (concat_texts (map console_text (numbers args)))).
Proof.
  intros Hmap Hacc.
  assert (Hres : list_comp basic_lookup (numbers args) = Ok results).
  { unfold list_comp. now rewrite (list_comp_from_map _ _ _ [] Hmap). }
  rewrite (cli_unfold args results w Hres). unfold bind at 1.
  now rewrite (console_loop_text _ _ w Hmap Hacc).
Qed.

(** The first line that standard output refuses stops the printing. *)
Lemma print_lines_refused (before after : list string) (line : string)
  (e : exn) (w : World) :
  Forall accepted before ->
  stdout_fault line = Some e ->
  for_each print (before ++ line :: after)%list w
  = (Raise e, printed w (text_of_lines before)).
Proof.
  intros Hacc Hline. rewrite for_each_app. unfold bind at 1.
  rewrite (print_lines_accepted _ Hacc). cbn [for_each]. unfold bind.
  now rewrite (print_refused line e _ Hline).
Qed.


(** C3 (amended): where standard output accepts the lines to be
    printed, a run sends to it the texts of the records of its inputs,
    one after the other in the order of the records, before anything the
    export does.  The text of a record whose [valid] is false is exactly
    one warning line with the input and the error message (empty when
    the record has no [error]); the text of any other record is the
    international format after a line break, followed by the indented
    lines for the region with the country code, the carrier ([Unknown]
    when empty), the line type and the comma-joined time zones
    ([Unknown] when there are none). *)
Theorem console_printer (args : Namespace) (w : World) :
  (forall s, In s (numbers args) -> Forall accepted (console_lines s)) ->
  exists results,
    list_comp basic_lookup (numbers args) = Ok results /\
    cli args w
    = export_results args results
        (printed w (concat_texts (map record_text results))) /\
    forall res, In res results ->
      (forall w', print_result res w' = (Ok tt, printed w' (record_text res)))
      /\
      ((dict_get res "valid" = Some (PBool false) /\
        exists input error,
          dict_get res "input" = Some (PStr input) /\
          dict_get_default res "error" (PStr EmptyString) = PStr error /\
          record_text res
          = "[!] " ++ input ++ ": Invalid – " ++ error ++ nl)
       \/
       (dict_get res "valid" = Some (PBool true) /\
        exists intl region code carrier type zones,
          dict_get res "international_format" = Some (PStr intl) /\
          dict_get res "region" = Some (PStr region) /\
          dict_get res "country_code" = Some (PInt code) /\
          dict_get res "carrier" = Some (PStr carrier) /\
          dict_get res "type" = Some (PStr type) /\
          dict_get res "timezones" = Some (PList (map PStr zones)) /\
          record_text res
          = nl ++ intl ++ nl
            ++ "  Region      : " ++ region
            ++ " ( +" ++ str_of_int code ++ " )" ++ nl
            ++ "  Carrier     : "
            ++ (if String.eqb carrier EmptyString then "Unknown" else carrier)
            ++ nl
            ++ "  Type        : " ++ type ++ nl
            ++ "  Time‑zones  : "
            ++ match zones with
               | [] => "Unknown"
               | _ :: _ => join ", " zones
               end ++ nl)).
Proof.
  intros Hacc.
  destruct (list_comp_lookups (numbers args)) as (results & Hmap & Hres).
  exists results. split; [exact Hres|]. split.
  { rewrite (cli_after_loop args results w Hmap Hacc).
    now rewrite (record_texts_lookups _ _ Hmap). }
  intros res Hin.
  destruct (result_has_input _ _ _ Hres Hin) as (s & Hs & Hlook).
  pose proof (record_text_lookup s res Hlook) as Htext. split.
  { intros w'. rewrite (print_result_lines s res w' Hlook).
    rewrite (print_lines_accepted _ (Hacc s Hs)).
    now rewrite console_lines_text, Htext. }
  rewrite Htext. unfold console_text. clear Htext.
  destruct (basic_lookup_cases s) as [(p & Hp & H)|(m & Hp & H)];
    rewrite H in Hlook; injection Hlook as <-.
  - destruct (parses_accepted _ _ Hp) as [-> _].
    destruct (is_valid_number p && is_possible_number p) eqn:Hv.
    + right. split; [cbn; now rewrite Hv|].
      do 6 eexists. repeat (split; [reflexivity|]). reflexivity.
    + left. split; [cbn; now rewrite Hv|].
      exists s, EmptyString. repeat (split; [reflexivity|]). reflexivity.
  - destruct (parses_rejected _ _ Hp) as [-> _].
    left. split; [reflexivity|].
    exists s, m. repeat (split; [reflexivity|]). reflexivity.
Qed.

(** C8: the results of a run are the records of its inputs, one for
    each input and in the order of the inputs: the list comprehension
    returns the pointwise image of the inputs under [basic_lookup], and
    this list is what the console loop and the export of the run work
    on. *)
Theorem results_follow_inputs (args : Namespace) :
  exists results,
    list_comp basic_lookup (numbers args) = Ok results /\
    length results = length (numbers args) /\
    map Ok results = map basic_lookup (numbers args) /\
    forall w,
      cli args w
      = (for_each print_result results ;;; export_results args results) w.
Proof.
  destruct (list_comp_lookups (numbers args)) as (results & Hmap & Hres).
  exists results. split; [exact Hres|]. split; [|split].
  - rewrite <- (length_map Ok results), <- Hmap. apply length_map.
  - now symmetry.
  - intros w. now apply cli_unfold.
Qed.

End ConsoleFacts.
(** ** What a computation leaves alone *)

Lemma keeps_file_ret {A} (p : string) (a : A) : keeps_file p (ret a).
Proof. intros w. reflexivity. Qed.

Lemma keeps_file_lift {A} (p : string) (r : result A) : keeps_file p (lift r).
Proof. intros w. reflexivity. Qed.

Lemma keeps_file_bind {A B} (p : string) (m : M A) (k : A -> M B) :
  keeps_file p m -> (forall a, keeps_file p (k a)) -> keeps_file p (bind m k).
Proof.
  intros Hm Hk w. unfold bind. specialize (Hm w).
  destruct (m w) as [[a|e] w']; cbn [snd] in *; [|exact Hm].
  now rewrite (Hk a w').
Qed.

Lemma keeps_file_for_each {A} (p : string) (body : A -> M unit) (xs : list A) :
  (forall x, keeps_file p (body x)) -> keeps_file p (for_each body xs).
Proof.
  intros Hbody. induction xs as [|x xs IH]; cbn [for_each].
  - apply keeps_file_ret.
  - apply keeps_file_bind; [apply Hbody|intros _; exact IH].
Qed.

Lemma touches_only_keeps {A} (p path : string) (m : M A) :
  p <> path -> touches_only path m -> keeps_file p m.
Proof. intros Hp Hm w. now apply (Hm w). Qed.

Lemma touches_only_ret {A} (path : string) (a : A) : touches_only path (ret a).
Proof. intros w. now split. Qed.

Lemma touches_only_lift {A} (path : string) (r : result A) :
  touches_only path (lift r).
Proof. intros w. now split. Qed.

Lemma touches_only_bind {A B} (path : string) (m : M A) (k : A -> M B) :
  touches_only path m -> (forall a, touches_only path (k a)) ->
  touches_only path (bind m k).
Proof.
  intros Hm Hk w. unfold bind. destruct (Hm w) as [Hs Hf].
  destruct (m w) as [[a|e] w']; cbn [snd] in *; [|now split].
  destruct (Hk a w') as [Hs' Hf']. split; [congruence|].
  intros p Hp. now rewrite Hf', Hf.
Qed.

Lemma touches_only_for_each {A} (path : string) (body : A -> M unit)
  (xs : list A) :
  (forall x, touches_only path (body x)) ->
  touches_only path (for_each body xs).
Proof.
  intros Hbody. induction xs as [|x xs IH]; cbn [for_each].
  - apply touches_only_ret.
  - apply touches_only_bind; [apply Hbody|intros _; exact IH].
Qed.

Lemma touches_only_set_file (path : string) (c : file_content) :
  touches_only path (set_file path c).
Proof.
  intros w. split; [reflexivity|].
  intros p Hp. cbn. now destruct (String.eqb_spec p path).
Qed.

Section FrameFacts.

Context {L : PhoneLib} {E : PyEnv}.

Lemma keeps_file_print (p s : string) : keeps_file p (print s).
Proof. intros w. unfold print. now destruct (stdout_fault s). Qed.

Lemma touches_only_open_w (path : string) (c : file_content) :
  touches_only path (open_w path c).
Proof.
  intros w. unfold open_w. destruct (open_fault path); [now split|].
  apply touches_only_set_file.
Qed.

Lemma touches_only_writer_writerow (path : string) (cells : list pyobj) :
  touches_only path (writer_writerow path cells).
Proof.
  intros w. unfold writer_writerow.
  destruct (files w path) as [[text|rows]|]; try now split.
  destruct (row_encodable cells); [|now split].
  destruct (write_fault path); [now split|].
  apply touches_only_set_file.
Qed.

Lemma touches_only_file_write (path text : string) :
  touches_only path (file_write path text).
Proof.
  intros w. unfold file_write.
  destruct (utf8_valid text); [|now split].
  destruct (write_fault path); [now split|].
  apply touches_only_set_file.
Qed.

Lemma touches_only_writerow (path : string) (fieldnames : list string)
  (rowdict : dict) :
  touches_only path (DictWriter.writerow path fieldnames rowdict).
Proof.
  apply touches_only_bind; [apply touches_only_lift|].
  intros cells. apply touches_only_writer_writerow.
Qed.

Lemma touches_only_write_csv (path : string) (rows : list dict) :
  touches_only path (write_csv path rows).
Proof.
  destruct rows as [|row0 rest]; [apply touches_only_ret|].
  unfold write_csv.
  apply touches_only_bind; [apply touches_only_open_w|intros _].
  apply touches_only_bind; [apply touches_only_writerow|intros _].
  apply touches_only_for_each. intros r. apply touches_only_writerow.
Qed.

Lemma touches_only_write_json (path : string) (rows : list dict) :
  touches_only path (write_json path rows).
Proof.
  apply touches_only_bind; [apply touches_only_open_w|intros _].
  apply touches_only_file_write.
Qed.

Lemma keeps_file_print_result (p : string) (res : dict) :
  keeps_file p (print_result res).
Proof.
  unfold print_result.
  repeat first
    [ apply keeps_file_print
    | apply keeps_file_lift
    | apply keeps_file_bind; [|intros ?]
    | match goal with |- keeps_file _ (if ?b then _ else _) => destruct b end ].
Qed.

(** The export, once the output path is known. *)
Lemma export_results_path (args : Namespace) (results : list dict)
  (o path : string) (w : World) :
  output args = Some o ->
  o <> EmptyString ->
  expanduser o = Ok path ->
  export_results args results w
  = (match format args with
     | json => write_json path results
     | csv => write_csv path results
     end ;;;
     shown <- lift (resolve path) ;;
     print (nl ++ "[+] Results written to " ++ shown)) w.
Proof.
  intros Hout Ho Hexp. unfold export_results. rewrite Hout.
  destruct (String.eqb_spec o EmptyString); [contradiction|].
  cbn [negb]. unfold bind at 1, lift. now rewrite Hexp.
Qed.

Lemma export_results_none (args : Namespace) (results : list dict) (w : World) :
  output args = None \/ output args = Some EmptyString ->
  export_results args results w = (Ok tt, w).
Proof. unfold export_results. now intros [-> | ->]. Qed.

Lemma export_results_no_home (args : Namespace) (results : list dict)
  (o : string) (e : exn) (w : World) :
  output args = Some o ->
  o <> EmptyString ->
  expanduser o = Raise e ->
  export_results args results w = (Raise e, w).
Proof.
  intros Hout Ho Hexp. unfold export_results. rewrite Hout.
  destruct (String.eqb_spec o EmptyString); [contradiction|].
  cbn [negb]. unfold bind at 1, lift. now rewrite Hexp.
Qed.

Lemma keeps_file_export (p : string) (args : Namespace) (results : list dict) :
  (forall o path, output args = Some o -> expanduser o = Ok path -> p <> path) ->
  keeps_file p (export_results args results).
Proof.
  intros Hp w.
  destruct (output args) as [o|] eqn:Hout;
    [|now rewrite export_results_none by tauto].
  destruct (String.eqb_spec o EmptyString) as [->|Ho];
    [now rewrite export_results_none by tauto|].
  destruct (expanduser o) as [path|e] eqn:Hexp;
    [|now rewrite (export_results_no_home args results o e)].
  rewrite (export_results_path args results o path w Hout Ho Hexp).
  specialize (Hp o path eq_refl Hexp). revert w.
  apply keeps_file_bind.
  - apply (touches_only_keeps p path); [exact Hp|].
    destruct (format args);
      [apply touches_only_write_json|apply touches_only_write_csv].
  - intros _. apply keeps_file_bind; [apply keeps_file_lift|].
    intros shown. apply keeps_file_print.
Qed.

Lemma keeps_file_cli (p : string) (args : Namespace) :
  (forall o path, output args = Some o -> expanduser o = Ok path -> p <> path) ->
  keeps_file p (cli args).
Proof.
  intros Hp. unfold cli.
  apply keeps_file_bind; [apply keeps_file_lift|intros results].
  apply keeps_file_bind.
  - apply keeps_file_for_each. intros res. apply keeps_file_print_result.
  - intros _. now apply keeps_file_export.
Qed.

End FrameFacts.

(** ** Computations that raise *)

Lemma raises_bind_l {A B} (m : M A) (k : A -> M B) :
  raises m -> raises (bind m k).
Proof.
  intros Hm w. destruct (Hm w) as (e & w' & H). exists e, w'.
  unfold bind. now rewrite H.
Qed.

Lemma raises_bind_r {A B} (m : M A) (k : A -> M B) :
  (forall a, raises (k a)) -> raises (bind m k).
Proof.
  intros Hk w. unfold bind. destruct (m w) as [[a|e] w']; [apply Hk|eauto].
Qed.

Lemma raises_lift {A} (e : exn) : raises (@lift A (Raise e)).
Proof. intros w. now exists e, w. Qed.

(** ** The CSV serializer *)

Section CsvFacts.

Context {E : PyEnv}.

Lemma open_w_state (path : string) (c : file_content) (w : World) :
  open_fault path = None ->
  open_w path c w = set_file path c w.
Proof. unfold open_w. now intros ->. Qed.

Lemma open_w_refused (path : string) (c : file_content) (e : exn) (w : World) :
  open_fault path = Some e -> open_w path c w = (Raise e, w).
Proof. unfold open_w. now intros ->. Qed.

Lemma set_file_csv_state (path : string) (rows : list (list pyobj)) (w : World) :
  csv_state w path rows (snd (set_file path (CsvFile rows) w)).
Proof.
  repeat split; cbn.
  - now rewrite String.eqb_refl.
  - intros p Hp. now destruct (String.eqb_spec p path).
Qed.

Lemma writer_writerow_state (w0 w : World) (path : string)
  (rows : list (list pyobj)) (cells : list pyobj) :
  write_fault path = None ->
  row_encodable cells = true ->
  csv_state w0 path rows w ->
  exists w', writer_writerow path cells w = (Ok tt, w') /\
             csv_state w0 path (rows ++ [cells]) w'.
Proof.
  intros Hwr Henc (Hout & Hfile & Hother). unfold writer_writerow.
  rewrite Hfile, Henc, Hwr.
  eexists. split; [reflexivity|]. repeat split; cbn.
  - exact Hout.
  - now rewrite String.eqb_refl.
  - intros p Hp. destruct (String.eqb_spec p path); [tauto|now apply Hother].
Qed.

Lemma writer_writerow_unencodable (w0 w : World) (path : string)
  (rows : list (list pyobj)) (cells : list pyobj) :
  row_encodable cells = false ->
  csv_state w0 path rows w ->
  writer_writerow path cells w = (Raise UnicodeEncodeError, w).
Proof.
  intros Henc (_ & Hfile & _). unfold writer_writerow.
  now rewrite Hfile, Henc.
Qed.

Lemma dict_to_list_fits (fieldnames : list string) (rowdict : dict) :
  (forall k, In k (keys rowdict) -> In k fieldnames) ->
  DictWriter._dict_to_list fieldnames rowdict = Ok (csv_row fieldnames rowdict).
Proof.
  intros Hsub. unfold DictWriter._dict_to_list.
  replace (filter _ (keys rowdict)) with (@nil string); [reflexivity|].
  symmetry. induction (keys rowdict) as [|k ks IH]; cbn; [reflexivity|].
  assert (Hk : mem k fieldnames = true) by (apply mem_In, Hsub; now left).
  rewrite Hk. cbn. apply IH. intros k' Hk'. apply Hsub. now right.
Qed.

Lemma dict_to_list_extra (fieldnames : list string) (rowdict : dict) (k : string) :
  In k (keys rowdict) -> ~ In k fieldnames ->
  DictWriter._dict_to_list fieldnames rowdict = Raise ValueError.
Proof.
  intros Hin Hout. unfold DictWriter._dict_to_list.
  assert (Hf : In k (filter (fun k => negb (mem k fieldnames)) (keys rowdict))).
  { apply filter_In. split; [exact Hin|].
    destruct (mem k fieldnames) eqn:Hm; [|reflexivity].
    apply mem_In in Hm. tauto. }
  destruct (filter _ (keys rowdict)); [destruct Hf|reflexivity].
Qed.

Lemma fits_In (fieldnames : list string) (rowdict : dict) :
  fits fieldnames rowdict = true <->
  (forall k, In k (keys rowdict) -> In k fieldnames).
Proof.
  unfold fits. rewrite forallb_forall. split; intros H k Hk.
  - apply mem_In. now apply H.
  - apply mem_In. now apply H.
Qed.

Lemma fits_false (fieldnames : list string) (rowdict : dict) :
  fits fieldnames rowdict = false ->
  exists k, In k (keys rowdict) /\ ~ In k fieldnames.
Proof.
  unfold fits. induction (keys rowdict) as [|k ks IH]; cbn; [discriminate|].
  destruct (mem k fieldnames) eqn:Hm; cbn.
  - intros H. destruct (IH H) as (k' & Hin & Hout). exists k'. tauto.
  - intros _. exists k. split; [now left|].
    intros Hin. apply mem_In in Hin. congruence.
Qed.

Lemma fits_self (rowdict : dict) : fits (keys rowdict) rowdict = true.
Proof. apply fits_In. tauto. Qed.

Lemma dict_to_list_cases (fieldnames : list string) (rowdict : dict) :
  DictWriter._dict_to_list fieldnames rowdict
  = if fits fieldnames rowdict then Ok (csv_row fieldnames rowdict)
    else Raise ValueError.
Proof.
  destruct (fits fieldnames rowdict) eqn:Hf.
  - apply dict_to_list_fits. now apply fits_In.
  - destruct (fits_false _ _ Hf) as (k & Hin & Hout).
    now apply (dict_to_list_extra _ _ k).
Qed.

(** One row: written when nothing stops the writer, and otherwise the
    file stays as it was. *)
Lemma writerow_run (w0 w : World) (path : string) (fieldnames : list string)
  (rows : list (list pyobj)) (rowdict : dict) :
  write_fault path = None ->
  csv_state w0 path rows w ->
  exists w',
    DictWriter.writerow path fieldnames rowdict w
    = (outcome (row_fault fieldnames rowdict), w') /\
    csv_state w0 path
      (rows ++ match row_fault fieldnames rowdict with
               | None => [csv_row fieldnames rowdict]
               | Some _ => []
               end) w'.
Proof.
  intros Hwr Hst. unfold DictWriter.writerow, bind, lift, row_fault.
  rewrite dict_to_list_cases.
  destruct (fits fieldnames rowdict).
  - destruct (row_encodable (csv_row fieldnames rowdict)) eqn:Henc.
    + now apply writer_writerow_state.
    + rewrite (writer_writerow_unencodable w0 w path rows _ Henc Hst).
      exists w. rewrite List.app_nil_r. now split.
  - exists w. rewrite List.app_nil_r. now split.
Qed.

Lemma header_fold (fieldnames : list string) :
  forall d : dict,
    let d' := fold_left (fun d k => dict_set d k (PStr k)) fieldnames d in
    (forall k, dict_get d' k
               = if mem k fieldnames then Some (PStr k) else dict_get d k) /\
    (forall k, In k (keys d') -> In k (keys d) \/ In k fieldnames).
Proof.
  induction fieldnames as [|f fs IH]; intros d; cbn.
  - split; [reflexivity|tauto].
  - destruct (IH (dict_set d f (PStr f))) as [Hget Hkeys]. split.
    + intros k. rewrite Hget, dict_get_set.
      destruct (String.eqb_spec k f) as [->|Hk]; cbn.
      * now destruct (mem f fs).
      * reflexivity.
    + intros k Hk. destruct (Hkeys k Hk) as [H|H]; [|tauto].
      rewrite keys_set in H. destruct (mem f (keys d)); [tauto|].
      apply in_app_or in H as [H|[<-|[]]]; tauto.
Qed.

Lemma header_cells (fieldnames : list string) :
  DictWriter._dict_to_list fieldnames (DictWriter.header fieldnames)
  = Ok (map PStr fieldnames).
Proof.
  destruct (header_fold fieldnames []) as [Hget Hkeys].
  rewrite dict_to_list_fits.
  - f_equal. unfold csv_row. apply map_ext_in. intros k Hk.
    unfold dict_get_default, DictWriter.header. rewrite Hget.
    apply mem_In in Hk. now rewrite Hk.
  - intros k Hk. destruct (Hkeys k Hk) as [[]|H]. exact H.
Qed.

(** The rows are written up to the first one that stops the writer. *)
Lemma writerows_run (w0 : World) (path : string) (fieldnames : list string)
  (rowdicts : list dict) :
  write_fault path = None ->
  forall (rows : list (list pyobj)) (w : World),
    csv_state w0 path rows w ->
    exists w',
      DictWriter.writerows path fieldnames rowdicts w
      = (outcome (first_fault fieldnames rowdicts), w') /\
      csv_state w0 path
        (rows ++ map (csv_row fieldnames)
                     (written_prefix fieldnames rowdicts)) w'.
Proof.
  intros Hwr. unfold DictWriter.writerows.
  induction rowdicts as [|r rs IH]; intros rows w Hst;
    cbn [for_each first_fault written_prefix map].
  - exists w. rewrite List.app_nil_r. now split.
  - destruct (writerow_run _ _ _ fieldnames _ r Hwr Hst) as (w1 & H1 & Hst1).
    unfold bind. rewrite H1.
    destruct (row_fault fieldnames r) as [e|]; cbn [outcome map].
    + exists w1. now split.
    + destruct (IH _ _ Hst1) as (w2 & H2 & Hst2).
      exists w2. rewrite H2. split; [reflexivity|].
      now rewrite <- List.app_assoc in Hst2.
Qed.

Lemma write_csv_run (path : string) (row0 : dict) (rest : list dict)
  (w : World) :
  open_fault path = None ->
  write_fault path = None ->
  row_encodable (map PStr (keys row0)) = true ->
  exists w',
    write_csv path (row0 :: rest) w
    = (outcome (first_fault (keys row0) (row0 :: rest)), w') /\
    csv_state w path
      (map PStr (keys row0)
       :: map (csv_row (keys row0))
              (written_prefix (keys row0) (row0 :: rest))) w'.
Proof.
  intros Hop Hwr Hhead. unfold write_csv.
  unfold bind at 1. rewrite (open_w_state path _ w Hop).
  pose proof (set_file_csv_state path [] w) as Hst1.
  destruct (set_file path (CsvFile []) w) as [r1 w1] eqn:H1.
  assert (r1 = Ok tt) as -> by (now injection H1 as <- _).
  cbn [snd] in Hst1.
  destruct (writer_writerow_state _ _ _ _ (map PStr (keys row0)) Hwr Hhead Hst1)
    as (w2 & H2 & Hst2).
  destruct (writerows_run _ path (keys row0) (row0 :: rest) Hwr _ _ Hst2)
    as (w3 & H3 & Hst3).
  exists w3. unfold bind at 1.
  unfold DictWriter.writeheader, DictWriter.writerow, bind at 1, lift.
  rewrite header_cells, H2, H3. now split.
Qed.




(** A row outside the field names makes the writer raise, whatever the
    machine does before it gets there. *)
Lemma writerows_extra (path : string) (fieldnames : list string)
  (rowdicts : list dict) (r : dict) :
  In r rowdicts -> fits fieldnames r = false ->
  raises (DictWriter.writerows path fieldnames rowdicts).
Proof.
  intros Hin Hfit. unfold DictWriter.writerows.
  induction rowdicts as [|r' rs IH]; [destruct Hin|]. cbn [for_each].
  destruct Hin as [->|Hin].
  - apply raises_bind_l. unfold DictWriter.writerow. apply raises_bind_l.
    rewrite dict_to_list_cases, Hfit. apply raises_lift.
  - apply raises_bind_r. intros _. now apply IH.
Qed.

Lemma write_csv_extra (path : string) (row0 : dict) (rest : list dict)
  (r : dict) :
  In r rest -> fits (keys row0) r = false ->
  raises (write_csv path (row0 :: rest)).
Proof.
  intros Hin Hfit. unfold write_csv.
  apply raises_bind_r; intros _. apply raises_bind_r; intros _.
  apply (writerows_extra _ _ _ r); [now right|exact Hfit].
Qed.

(** A batch whose second record does not fit the first makes
    [write_csv] raise, whatever the machine does. *)
Lemma write_csv_second_extra (path : string) (r1 r2 : dict) :
  fits (keys r1) r2 = false -> raises (write_csv path [r1; r2]).
Proof. intros Hfit. apply (write_csv_extra _ _ _ r2); [now left|exact Hfit]. Qed.

(** C10: on an empty sequence of records [write_csv] returns at once;
    the world is the one before the call, so the file at the path is not
    opened, created, emptied or changed. *)
Theorem write_csv_empty_untouched (path : string) (w : World) :
  write_csv path [] w = (Ok tt, w).
Proof. reflexivity. Qed.

(** C4 (the code falls short of it): a batch that holds the record of a
    string that parsed and then the record of a string that did not is
    not written in full.  The second record has the key [error], which
    is no column of the header, and [write_csv] raises on every machine.
    Where the file can be opened and written and the first record can be
    encoded, the exception is the [ValueError] of the second record, and
    the file holds the header and the first data row only. *)
Theorem write_csv_mixed_batch_raises {L : PhoneLib} (s1 s2 : string)
  (parsed : PhoneNumber) (msg path : string) (w : World) :
  parse s1 = Ok parsed ->
  parse s2 = Raise (NumberParseException msg) ->
  exists r1 r2,
    basic_lookup s1 = Ok r1 /\
    basic_lookup s2 = Ok r2 /\
    (exists e w', write_csv path [r1; r2] w = (Raise e, w')) /\
    (open_fault path = None ->
     write_fault path = None ->
     row_encodable (map snd r1) = true ->
     exists w',
       write_csv path [r1; r2] w = (Raise ValueError, w') /\
       files w' path = Some (CsvFile [map PStr (keys r1); map snd r1])).
Proof.
  intros Hp1 Hp2.
  pose proof (basic_lookup_parsed _ _ Hp1) as H1.
  pose proof (basic_lookup_unparsed _ _ Hp2) as H2.
  set (r1 := full_record s1 parsed (fallback_name (number_type parsed))) in *.
  set (r2 := [ ("input", PStr s2); ("valid", PBool false);
               ("error", PStr msg) ]) in *.
  assert (Hf2 : fits (keys r1) r2 = false) by reflexivity.
  exists r1, r2. split; [exact H1|]. split; [exact H2|]. split.
  - now apply write_csv_second_extra.
  - intros Hop Hwr Henc.
    assert (Hrow : csv_row (keys r1) r1 = map snd r1) by reflexivity.
    assert (Hr1 : row_fault (keys r1) r1 = None).
    { unfold row_fault. now rewrite fits_self, Hrow, Henc. }
    assert (Hr2 : row_fault (keys r1) r2 = Some ValueError).
    { unfold row_fault. now rewrite Hf2. }
    destruct (write_csv_run path r1 [r2] w Hop Hwr eq_refl)
      as (w' & Hw & _ & Hfile & _).
    cbn [first_fault written_prefix] in Hw, Hfile.
    rewrite Hr1, Hr2 in Hw, Hfile. cbn [map] in Hfile. rewrite Hrow in Hfile.
    exists w'. split; [exact Hw|exact Hfile].
Qed.

End CsvFacts.
(** ** The JSON serializer *)

(** *** Strings *)






(** *** Numbers *)








(** *** White space and the first character of an encoded value *)




Lemma value_end_newline_indent (level : nat) (s : string) :
  value_end (newline_indent level ++ s) = true.
Proof. reflexivity. Qed.





(** *** Arrays *)





(** *** Objects *)








(** *** Values *)






(** *** The fuel suffices *)








(** *** The encoding of the text *)
















(** *** The file *)

Section JsonFileFacts.

Context {E : PyEnv}.


(** A text that cannot be encoded leaves the file empty. *)
Lemma write_text_unencodable (path text : string) (w : World) :
  open_fault path = None ->
  utf8_valid text = false ->
  exists w',
    write_text path text w = (Raise UnicodeEncodeError, w') /\
    files w' path = Some (TextFile EmptyString) /\
    stdout w' = stdout w /\
    (forall p, p <> path -> files w' p = files w p).
Proof.
  intros Hop Hvalid. unfold write_text, bind, open_w, file_write.
  rewrite Hop. cbn [set_file]. rewrite Hvalid.
  eexists. split; [reflexivity|]. cbn. rewrite String.eqb_refl.
  repeat split. intros p Hp. now destruct (String.eqb_spec p path).
Qed.

Lemma write_text_unopened (path text : string) (e : exn) (w : World) :
  open_fault path = Some e -> write_text path text w = (Raise e, w).
Proof. intros Hop. unfold write_text, bind, open_w. now rewrite Hop. Qed.


End JsonFileFacts.

(** ** The whole run *)

Section RunFacts.

Context {L : PhoneLib} {E : PyEnv}.







(** X2: without an output path (none given, or the empty string) and
    with a standard output that accepts the lines of the inputs, a run
    returns normally, adds to standard output the texts of the inputs
    in the order of the inputs and nothing else, and touches no file. *)
Theorem cli_console_text (args : Namespace) (w : World) :
  output args = None \/ output args = Some EmptyString ->
  (forall s, In s (numbers args) -> Forall accepted (console_lines s)) ->
  cli args w
  = (Ok tt,
     {| stdout := stdout w ++ concat_texts (map console_text (numbers args));
        files := files w |}).
Proof.
  intros Hout Hacc.
  destruct (lookups_exist (numbers args)) as [results Hmap].
  rewrite (cli_after_loop args results w Hmap Hacc).
  now apply export_results_none.
Qed.

(** X8: the first line that standard output refuses ends the run with
    the exception of the stream.  The lines before it are on standard
    output, the line itself and the lines after it are not; nothing is
    exported and no file is touched, whatever the output path and the
    format are. *)
Theorem cli_console_refused (args : Namespace) (before after : list string)
  (line : string) (e : exn) (w : World) :
  flat_map console_lines (numbers args) = (before ++ line :: after)%list ->
  Forall accepted before ->
  stdout_fault line = Some e ->
  cli args w
  = (Raise e,
     {| stdout := stdout w ++ text_of_lines before; files := files w |}).
Proof.
  intros Hlines Hacc Hline.
  destruct (list_comp_lookups (numbers args)) as (results & Hmap & Hres).
  rewrite (cli_unfold args results w Hres). unfold bind at 1.
  rewrite (console_loop_lines _ _ w Hmap), Hlines.
  now rewrite (print_lines_refused before after line e w Hacc Hline).
Qed.



(** X9: with an output path and the JSON format, when the text of the
    results has no UTF-8 encoding (a record holds a byte of the command
    line that is not UTF-8), a run raises [UnicodeEncodeError] after
    the console output: the file at the expanded path has been opened
    and is left empty, and the closing line is not printed. *)
Theorem cli_json_unencodable (args : Namespace) (o path : string)
  (results : list dict) (w : World) :
  output args = Some o ->
  o <> EmptyString ->
  format args = json ->
  expanduser o = Ok path ->
  open_fault path = None ->
  (forall s, In s (numbers args) -> Forall accepted (console_lines s)) ->
  list_comp basic_lookup (numbers args) = Ok results ->
  utf8_valid (json_dumps (PList (map PDict results))) = false ->
  exists w',
    cli args w = (Raise UnicodeEncodeError, w') /\
    stdout w' = stdout w ++ concat_texts (map console_text (numbers args)) /\
    files w' path = Some (TextFile EmptyString) /\
    (forall p, p <> path -> files w' p = files w p).
Proof.
  intros Hout Ho Hfmt Hexp Hop Hacc Hres Hbad.
  destruct (list_comp_lookups (numbers args)) as (results' & Hmap & Hres').
  rewrite Hres in Hres'. injection Hres' as <-.
  destruct (write_text_unencodable path (json_dumps (PList (map PDict results)))
              (printed w (concat_texts (map console_text (numbers args))))
              Hop Hbad) as (w1 & Hw & Hfile & Hso & Hfr).
  exists w1. split; [|split; [|split]].
  - rewrite (cli_after_loop args results w Hmap Hacc).
    rewrite (export_results_path args results o path _ Hout Ho Hexp), Hfmt.
    unfold bind at 1. unfold write_json. now rewrite Hw.
  - exact Hso.
  - exact Hfile.
  - intros p Hp. now rewrite (Hfr p Hp).
Qed.

(** X10: an output path that cannot be expanded or opened ends the run
    with the exception of [expanduser] or of [open], after the console
    output; no file is touched and the closing line is not printed. *)
Theorem cli_export_refused (args : Namespace) (o : string) (e : exn)
  (w : World) :
  output args = Some o ->
  o <> EmptyString ->
  numbers args <> [] ->
  (forall s, In s (numbers args) -> Forall accepted (console_lines s)) ->
  expanduser o = Raise e \/
  (exists path, expanduser o = Ok path /\ open_fault path = Some e) ->
  cli args w
  = (Raise e,
     {| stdout := stdout w ++ concat_texts (map console_text (numbers args));
        files := files w |}).
Proof.
  intros Hout Ho Hne Hacc Hbad.
  destruct (lookups_exist (numbers args)) as [results Hmap].
  rewrite (cli_after_loop args results w Hmap Hacc).
  destruct Hbad as [Hexp|(path & Hexp & Hop)].
  - now apply (export_results_no_home args results o e).
  - rewrite (export_results_path args results o path _ Hout Ho Hexp).
    unfold bind at 1.
    destruct (format args).
    + unfold write_json. now rewrite (write_text_unopened path _ e _ Hop).
    + destruct results as [|row0 rest].
      { destruct (numbers args); [contradiction|discriminate]. }
      unfold write_csv, bind at 1. now rewrite (open_w_refused path _ e _ Hop).
Qed.

(** X6: a run changes no file but the one at the expanded output path,
    whatever the format and however the run ends; without an output
    path it changes no file at all. *)
Theorem cli_frame (args : Namespace) (w : World) (p : string) :
  (forall o path, output args = Some o -> expanduser o = Ok path -> p <> path) ->
  files (snd (cli args w)) p = files w p.
Proof. intros Hp. now apply keeps_file_cli. Qed.

End RunFacts.

(** ** The CSV export of a run *)

Section CsvRunFacts.

Context {L : PhoneLib} {E : PyEnv}.









End CsvRunFacts.

(** ** What a run can raise *)


Section OutcomeFacts.

Context {L : PhoneLib} {E : PyEnv}.











End OutcomeFacts.

(** ** The program on the concrete instance *)

Example demo_lookup_number :
  @basic_lookup Demo.released Demo.number = Ok Demo.number_record.
Proof. reflexivity. Qed.

Example demo_lookup_garbage :
  @basic_lookup Demo.released "not-a-number" = Ok Demo.garbage_record.
Proof. reflexivity. Qed.

Example demo_lookup_bad_input :
  @basic_lookup Demo.released Demo.bad_input = Ok Demo.bad_record.
Proof. reflexivity. Qed.

Example demo_lookup_enum :
  rbind (@basic_lookup Demo.with_enum Demo.number)
        (fun rec => subscript rec "type")
  = Ok (PStr "FIXED_LINE_OR_MOBILE").
Proof. reflexivity. Qed.

Lemma valid_is_conjunction_witness :
  @parse Demo.released Demo.number = Ok Demo.number /\
  exists rec,
    @basic_lookup Demo.released Demo.number = Ok rec /\
    dict_get rec "valid" = Some (PBool true).
Proof.
  split; [reflexivity|].
  apply (@valid_is_conjunction Demo.released Demo.number Demo.number).
  reflexivity.
Defined.

Lemma valid_implies_possible_witness :
  dict_get Demo.number_record "possible" = Some (PBool true).
Proof.
  apply (@valid_implies_possible Demo.released Demo.number Demo.number
           Demo.number_record); reflexivity.
Defined.

(** C5, as stated, fails: with the package as released both name
    resolutions raise, and the [type] field is the numeral of the code. *)
Lemma type_field_not_a_name :
  exists rec,
    @parse Demo.released Demo.number = Ok Demo.number /\
    @basic_lookup Demo.released Demo.number = Ok rec /\
    dict_get rec "type" = Some (PStr "2") /\
    ~ In "2" line_type_names.
Proof.
  exists Demo.number_record. repeat split.
  cbn. intros H. repeat (destruct H as [H|H]; [discriminate H|]). exact H.
Qed.

Lemma type_field_fallback_witness :
  @parse Demo.with_enum Demo.number = Ok Demo.number /\
  exists rec,
    @basic_lookup Demo.with_enum Demo.number = Ok rec /\
    dict_get rec "type" = Some (PStr "FIXED_LINE_OR_MOBILE") /\
    ~ In (str_of_int 2) line_type_names.
Proof.
  split; [reflexivity|].
  apply (@type_field_fallback Demo.with_enum Demo.number Demo.number).
  reflexivity.
Defined.

Lemma console_printer_witness :
  exists results,
    @list_comp _ _ (@basic_lookup Demo.released)
      (numbers DemoRun.console_only) = Ok results /\
    @cli Demo.released Demo.env DemoRun.console_only Demo.w0
    = @export_results Demo.env DemoRun.console_only results
        (printed Demo.w0 (concat_texts (map record_text results))) /\
    In Demo.garbage_record results /\
    record_text Demo.garbage_record
    = "[!] not-a-number: Invalid – " ++ Demo.message ++ nl.
Proof.
  destruct (@console_printer Demo.released Demo.env DemoRun.console_only
              Demo.w0) as (results & Hres & Hcli & _).
  { intros s [<-|[<-|[]]]; repeat constructor. }
  exists results. split; [exact Hres|]. split; [exact Hcli|].
  injection Hres as <-. split; [right; left; reflexivity|reflexivity].
Defined.

(** C3, as stated, fails: an argument that is the byte FF has a record
    whose [valid] is false, and on a standard output in UTF-8 the run
    raises at its warning line: nothing is printed for the record. *)
Lemma console_printer_refused :
  @list_comp _ _ (@basic_lookup Demo.released) (numbers DemoRun.bad_console)
  = Ok [Demo.bad_record] /\
  dict_get Demo.bad_record "valid" = Some (PBool false) /\
  @print_result Demo.env Demo.bad_record Demo.w0
  = (Raise UnicodeEncodeError, Demo.w0) /\
  @cli Demo.released Demo.env DemoRun.bad_console Demo.w0
  = (Raise UnicodeEncodeError, Demo.w0).
Proof. repeat split. Qed.

(** The output of the run on a number and a string that is none. *)
Example demo_console_run :
  @cli Demo.released Demo.env DemoRun.console_only Demo.w0
  = (Ok tt,
     printed Demo.w0
       ((nl ++ "+1 202-555-0123" ++ nl
         ++ "  Region      : Washington D.C. ( +1 )" ++ nl
         ++ "  Carrier     : Unknown" ++ nl
         ++ "  Type        : 2" ++ nl
         ++ "  Time‑zones  : America/New_York" ++ nl)
        ++ "[!] not-a-number: Invalid – " ++ Demo.message ++ nl)).
Proof. reflexivity. Qed.

(** A string that parses to a number that is not valid: the record has
    no [error], and the warning ends after the dash. *)
Example demo_console_short :
  rbind (@basic_lookup Demo.released Demo.short_number)
        (fun res => fst (@print_result Demo.env res Demo.w0))
  = Ok tt /\
  rbind (@basic_lookup Demo.released Demo.short_number)
        (fun res => Ok (stdout (snd (@print_result Demo.env res Demo.w0))))
  = Ok ("[!] +12025550: Invalid – " ++ nl).
Proof. split; reflexivity. Qed.

(** Two records of the same shape are exported in full. *)
Example demo_csv_uniform :
  let (r, w) := @write_csv Demo.env "out.csv"
                  [Demo.number_record; Demo.number_record] Demo.w0 in
  r = Ok tt /\
  files w "out.csv"
  = Some (CsvFile
      [ map PStr (keys Demo.number_record);
        map snd Demo.number_record; map snd Demo.number_record ]).
Proof. split; reflexivity. Qed.

Lemma write_csv_mixed_batch_raises_witness :
  @parse Demo.released Demo.number = Ok Demo.number /\
  @parse Demo.released "not-a-number"
  = Raise (NumberParseException Demo.message) /\
  exists r1 r2,
    @basic_lookup Demo.released Demo.number = Ok r1 /\
    @basic_lookup Demo.released "not-a-number" = Ok r2 /\
    (exists e w', @write_csv Demo.env "out.csv" [r1; r2] Demo.w0
                  = (Raise e, w')) /\
    (@open_fault Demo.env "out.csv" = None ->
     @write_fault Demo.env "out.csv" = None ->
     row_encodable (map snd r1) = true ->
     exists w',
       @write_csv Demo.env "out.csv" [r1; r2] Demo.w0
       = (Raise ValueError, w') /\
       files w' "out.csv" = Some (CsvFile [map PStr (keys r1); map snd r1])).
Proof.
  split; [reflexivity|]. split; [reflexivity|].
  apply (@write_csv_mixed_batch_raises Demo.env Demo.released Demo.number
           "not-a-number" Demo.number Demo.message "out.csv" Demo.w0);
    reflexivity.
Defined.

(** The same batch, run: the header, one data row, then the exception. *)
Example demo_csv_mixed :
  let (r, w) := @write_csv Demo.env "out.csv"
                  [Demo.number_record; Demo.garbage_record] Demo.w0 in
  r = Raise ValueError /\
  files w "out.csv"
  = Some (CsvFile
      [ map PStr (keys Demo.number_record); map snd Demo.number_record ]).
Proof. split; reflexivity. Qed.

(** The other order fails as well: the header has three columns and the
    second record has keys outside them. *)
Example demo_csv_mixed_reversed :
  let (r, w) := @write_csv Demo.env "out.csv"
                  [Demo.garbage_record; Demo.number_record] Demo.w0 in
  r = Raise ValueError /\
  files w "out.csv"
  = Some (CsvFile
      [ [PStr "input"; PStr "valid"; PStr "error"];
        [PStr "not-a-number"; PBool false; PStr Demo.message] ]).
Proof. split; reflexivity. Qed.

(** A record that holds a byte which is not UTF-8 stops the CSV writer
    after the header. *)
Example demo_csv_bad_record :
  let (r, w) := @write_csv Demo.env "out.csv" [Demo.bad_record] Demo.w0 in
  r = Raise UnicodeEncodeError /\
  files w "out.csv"
  = Some (CsvFile [ [PStr "input"; PStr "valid"; PStr "error"] ]).
Proof. split; reflexivity. Qed.

(** A path in a directory that does not exist cannot be opened. *)
Example demo_csv_nowhere :
  @write_csv Demo.env "/nowhere/out.csv" [Demo.number_record] Demo.w0
  = (Raise OSError, Demo.w0).
Proof. reflexivity. Qed.




(** The text of the two records of the runs. *)
Example demo_json_text :
  json_dumps (PList (map PDict [Demo.garbage_record]))
  = "[" ++ nl
    ++ "  {" ++ nl
    ++ "    " ++ String DQUOTE "input" ++ String DQUOTE ": "
              ++ String DQUOTE "not-a-number" ++ String DQUOTE "," ++ nl
    ++ "    " ++ String DQUOTE "valid" ++ String DQUOTE ": false," ++ nl
    ++ "    " ++ String DQUOTE "error" ++ String DQUOTE ": "
              ++ String DQUOTE Demo.message ++ String DQUOTE EmptyString ++ nl
    ++ "  }" ++ nl
    ++ "]".
Proof. reflexivity. Qed.

Lemma cli_console_text_witness :
  output DemoRun.console_only = None /\
  @cli Demo.released Demo.env DemoRun.console_only Demo.w0
  = (Ok tt,
     {| stdout :=
          stdout Demo.w0
          ++ concat_texts (map (@console_text Demo.released)
                               (numbers DemoRun.console_only));
        files := files Demo.w0 |}).
Proof.
  split; [reflexivity|].
  apply (@cli_console_text Demo.released Demo.env DemoRun.console_only Demo.w0).
  - left. reflexivity.
  - intros s [<-|[<-|[]]]; repeat constructor.
Defined.

Lemma cli_console_refused_witness :
  @cli Demo.released Demo.env
    {| numbers := [Demo.number; Demo.bad_input; "not-a-number"];
       output := Some "out.json";
       format := json |} Demo.w0
  = (Raise UnicodeEncodeError,
     {| stdout :=
          stdout Demo.w0
          ++ text_of_lines (@console_lines Demo.released Demo.number);
        files := files Demo.w0 |}).
Proof.
  apply (@cli_console_refused Demo.released Demo.env _
           (@console_lines Demo.released Demo.number)
           (@console_lines Demo.released "not-a-number")
           ("[!] " ++ Demo.bad_input ++ ": Invalid – " ++ Demo.message)).
  - reflexivity.
  - repeat constructor.
  - reflexivity.
Defined.


Lemma cli_json_unencodable_witness :
  exists w',
    @cli Demo.released Demo.posix_env DemoRun.bad_to_json Demo.w0
    = (Raise UnicodeEncodeError, w') /\
    stdout w'
    = stdout Demo.w0
      ++ concat_texts (map (@console_text Demo.released)
                           (numbers DemoRun.bad_to_json)) /\
    files w' "out.json" = Some (TextFile EmptyString) /\
    (forall p, p <> "out.json" -> files w' p = files Demo.w0 p).
Proof.
  apply (@cli_json_unencodable Demo.released Demo.posix_env DemoRun.bad_to_json
           "out.json" "out.json" [Demo.bad_record] Demo.w0);
    try reflexivity; try discriminate.
  intros s [<-|[]]; repeat constructor.
Defined.

Lemma cli_export_refused_witness :
  @cli Demo.released Demo.env DemoRun.to_nowhere Demo.w0
  = (Raise OSError,
     {| stdout :=
          stdout Demo.w0
          ++ concat_texts (map (@console_text Demo.released)
                               (numbers DemoRun.to_nowhere));
        files := files Demo.w0 |}).
Proof.
  apply (@cli_export_refused Demo.released Demo.env DemoRun.to_nowhere
           "/nowhere/out.json" OSError Demo.w0);
    try reflexivity; try discriminate.
  - intros s [<-|[]]; repeat constructor.
  - right. exists "/nowhere/out.json". split; reflexivity.
Defined.



Lemma cli_frame_witness :
  files (snd (@cli Demo.released Demo.env DemoRun.to_csv_mixed Demo.w0))
        "notes.txt"
  = files Demo.w0 "notes.txt".
Proof.
  apply (@cli_frame Demo.released Demo.env DemoRun.to_csv_mixed Demo.w0
           "notes.txt").
  intros o path Ho Hpath. injection Ho as <-. injection Hpath as <-.
  discriminate.
Defined.


(** The run of [phonespy.py +12025550123 not-a-number -o out.csv -f csv]
    on the concrete instance: both records are printed, then the export
    raises. *)
Example demo_cli_csv_mixed :
  let (r, w) := @cli Demo.released Demo.env DemoRun.to_csv_mixed Demo.w0 in
  r = Raise ValueError /\
  files w "out.csv"
  = Some (CsvFile
      [ map PStr (keys Demo.number_record); map snd Demo.number_record ]).
Proof. split; reflexivity. Qed.

(** The texts of the two inputs of the runs above. *)
Example demo_console_texts :
  concat_texts (map (@console_text Demo.released)
                    (numbers DemoRun.to_csv_mixed))
  = (nl ++ "+1 202-555-0123" ++ nl
     ++ "  Region      : Washington D.C. ( +1 )" ++ nl
     ++ "  Carrier     : Unknown" ++ nl
     ++ "  Type        : 2" ++ nl
     ++ "  Time‑zones  : America/New_York" ++ nl)
    ++ "[!] not-a-number: Invalid – " ++ Demo.message ++ nl.
Proof. reflexivity. Qed.
